(* Shallow embedding of src/mcp-servers/excel-python-server.py:
   the openpyxl-based analysis passes of ExcelAnalyzer, the TOOLS catalog,
   handle_request and the stdin/stdout main loop. *)

From Stdlib Require Import String Ascii ZArith NArith Bool Lia List Sorted.
Import ListNotations.
Open Scope string_scope.
Open Scope list_scope.
Set Warnings "-register-all,-abstract-large-number".

(* ------------------------------------------------------------------------- *)
(** * Python values as they appear in cells *)

Module Py.

(** Decimal digits of a natural number (the body of Python's [str] on ints). *)
Fixpoint digits_aux (fuel : nat) (n : N) (acc : string) : string :=
  match fuel with
  | O => acc
  | S f =>
      let acc' := String (ascii_of_N (48 + N.modulo n 10)) acc in
      let q := N.div n 10 in
      if N.eqb q 0 then acc' else digits_aux f q acc'
  end.

Definition str_N (n : N) : string := digits_aux (S (N.size_nat n)) n "".

Definition str_nat (n : nat) : string := str_N (N.of_nat n).

(** [str(z)] for a Python int. *)
Definition str_Z (z : Z) : string :=
  match z with
  | Z0 => "0"
  | Zpos p => str_N (Npos p)
  | Zneg p => String "-" (str_N (Npos p))
  end.

(** ['?' in s]. *)
Fixpoint contains (c : ascii) (s : string) : bool :=
  match s with
  | EmptyString => false
  | String c' s' => Ascii.eqb c c' || contains c s'
  end.

End Py.

Notation "a ^^ b" := (String.append a b) (at level 60, right associativity).

(* ------------------------------------------------------------------------- *)
(** * Exceptions and the error monad *)

(** The exceptions the handlers can raise; [str(e)] is the message. *)
Inductive exn :=
| TypeError (msg : string)
| AttributeError (msg : string)
| ValueError (msg : string)
| LoadError (msg : string)
| DecodeError (msg : string).

Definition str_exn (e : exn) : string :=
  match e with
  | TypeError m | AttributeError m | ValueError m | LoadError m | DecodeError m => m
  end.

Inductive result (A : Type) :=
| Ok (a : A)
| Err (e : exn).
Arguments Ok {A} a.
Arguments Err {A} e.

Definition bind {A B} (m : result A) (k : A -> result B) : result B :=
  match m with Ok a => k a | Err e => Err e end.

Notation "x <- m ;; k" := (bind m (fun x => k))
  (at level 61, m at next level, right associativity).

Definition rmap {A B} (f : A -> B) (m : result A) : result B :=
  match m with Ok a => Ok (f a) | Err e => Err e end.

(** A [for] loop whose body may raise: the first exception ends it. *)
Fixpoint fold_m {A B} (f : B -> A -> result B) (l : list A) (b : B) : result B :=
  match l with
  | [] => Ok b
  | x :: r => b' <- f b x ;; fold_m f r b'
  end.


(** A cell value as openpyxl hands it out with [data_only=False]: a string
    (formulas included, as their text), an int or a bool. *)
Inductive CValue :=
| VStr (s : string)
| VInt (z : Z)
| VBool (b : bool).

(** Python's [str(v)]. *)
Definition py_str (v : CValue) : string :=
  match v with
  | VStr s => s
  | VInt z => Py.str_Z z
  | VBool true => "True"
  | VBool false => "False"
  end.

(** Python truthiness of [cell.value] ([None] is falsy). *)
Definition truthy (v : option CValue) : bool :=
  match v with
  | None => false
  | Some (VStr s) => negb (String.eqb s "")
  | Some (VInt z) => negb (Z.eqb z 0)
  | Some (VBool b) => b
  end.

(* ------------------------------------------------------------------------- *)
(** * Workbook model (the openpyxl object model the passes read) *)

(** The letters of a column, bijective base 26 (1 -> A, 26 -> Z, 27 -> AA):
    the entries of openpyxl's [_STRING_COL_CACHE]. *)
Fixpoint col_letter_aux (fuel : nat) (n : nat) (acc : string) : string :=
  match fuel with
  | O => acc
  | S f =>
      let d := Nat.modulo (n - 1) 26 in
      let q := Nat.div (n - 1) 26 in
      let acc' := String (ascii_of_nat (65 + d)) acc in
      if Nat.eqb q 0 then acc' else col_letter_aux f q acc'
  end.

Definition column_letter (n : nat) : string := col_letter_aux n n "".

(** openpyxl's [get_column_letter]: a lookup in [_STRING_COL_CACHE], which
    covers the indices 1..18278 (A..ZZZ); any other index raises
    [ValueError("Invalid column index {0}")]. *)
Definition get_column_letter (n : nat) : result string :=
  if Nat.leb 1 n && Nat.leb n 18278 then Ok (column_letter n)
  else Err (ValueError ("Invalid column index " ^^ Py.str_nat n)).

(** [cell.coordinate]: column letters then the 1-based row number; it calls
    [get_column_letter(self.column)], so it raises out of range. *)
Definition cell_coordinate (row col : nat) : result string :=
  col_letter <- get_column_letter col ;; Ok (col_letter ^^ Py.str_nat row).

(** [cell.coordinate] of a cell whose column is in range. *)
Definition coordinate (row col : nat) : string :=
  String.append (column_letter col) (Py.str_nat row).

(** An openpyxl comment. [author = None] stands for an object without an
    [author] attribute, the case [getattr(..., 'author', 'Unknown')]
    covers. *)
Record Comment := mkComment { ctext : string; cauthor : option string }.

Record Cell := mkCell { value : option CValue; comment : option Comment }.

Definition empty_cell : Cell := mkCell None None.

(** A worksheet: title, [sheet_state], bounding box, cell access by
    (row, column), [row_dimensions[r].hidden] and
    [column_dimensions[letter].hidden]. *)
Record Worksheet := mkWorksheet {
  title : string;
  sheet_state : string;
  max_row : nat;
  max_column : nat;
  cell_at : nat -> nat -> Cell;
  row_hidden : nat -> bool;
  col_hidden : string -> bool
}.

(** What [wb[sheet_name]] returns for a name of [wb.sheetnames]: a
    worksheet, or a chartsheet (openpyxl loads chart sheets too). A
    [Chartsheet] has a title and a [sheet_state] but no cells: no
    [iter_rows], no [max_row]. *)
Inductive Sheet :=
| Work (ws : Worksheet)
| Chart (name : string).

(** The workbook [load_workbook] returns: its sheets in [wb.sheetnames]
    order (names are unique, so [wb[sheet_name]] returns the sheet of that
    position). *)
Definition Book := list Sheet.

(** A workbook whose sheets are all worksheets, as the scans see it. *)
Definition Workbook := list Worksheet.

(** [ws.iter_rows()]: rows 1..max_row, each with columns 1..max_column. *)
Definition iter_rows (ws : Worksheet) : list (list (nat * nat)) :=
  map (fun r => map (fun c => (r, c)) (seq 1 (max_column ws))) (seq 1 (max_row ws)).

(* ------------------------------------------------------------------------- *)
(** * Reports *)

(** The [filename] argument is whatever JSON the request carried. *)
Inductive json :=
| JNull
| JBool (b : bool)
| JInt (z : Z)
| JStr (s : string)
| JArr (l : list json)
| JObj (kvs : list (string * json)).

Record CommentEntry := mkCommentEntry {
  ce_cell : string; ce_value : string; ce_comment : string; ce_author : string }.

Record CommentSheet := mkCommentSheet {
  cs_sheet : string; comment_count : nat; comments : list CommentEntry }.

Record CommentReport := mkCommentReport {
  cr_filename : json; total_comments : nat; cr_worksheets : list CommentSheet }.

(* ------------------------------------------------------------------------- *)
(** * ExcelAnalyzer.extract_comments (scan part, after the load)

    The scans of this section and the next two read a worksheet whose
    column indices are all in [get_column_letter]'s range; the loops as they
    run on any loaded workbook, raising where the code raises, follow
    them. *)

Definition comment_entry (ws : Worksheet) (rc : nat * nat) (cm : Comment)
  : CommentEntry :=
  let '(r, c) := rc in
  let cl := cell_at ws r c in
  mkCommentEntry (coordinate r c)
    (if truthy (value cl) then match value cl with Some v => py_str v | None => "" end
     else "")
    (ctext cm)
    (match cauthor cm with Some a => a | None => "Unknown" end).

(** The two nested [for] loops, appending to [sheet_comments]. *)
Definition sheet_comments (ws : Worksheet) : list CommentEntry :=
  fold_left (fun acc row =>
    fold_left (fun acc rc =>
      match comment (cell_at ws (fst rc) (snd rc)) with
      | Some cm => (acc ++ [comment_entry ws rc cm])
      | None => acc
      end) row acc)
    (iter_rows ws) [].

(** One iteration of the sheet loop, updating [results]. *)
Definition comments_step (res : CommentReport) (ws : Worksheet) : CommentReport :=
  let sc := sheet_comments ws in
  match sc with
  | [] => res
  | _ => mkCommentReport (cr_filename res) (total_comments res + length sc)
           (cr_worksheets res ++ [mkCommentSheet (title ws) (length sc) sc])
  end.

Definition comments_of (filename : json) (wb : Workbook) : CommentReport :=
  fold_left comments_step wb (mkCommentReport filename 0 []).

(* ------------------------------------------------------------------------- *)
(** * ExcelAnalyzer.extract_questions (scan part) *)

Record QuestionEntry := mkQuestionEntry {
  qe_cell : string; qe_question : string;
  qe_answer_cell : option string; qe_answer : string }.

Record QuestionSheet := mkQuestionSheet {
  qs_sheet : string; question_count : nat; questions : list QuestionEntry }.

Record QuestionReport := mkQuestionReport {
  qr_filename : json; total_questions : nat; qr_worksheets : list QuestionSheet }.

(** [cell.value and '?' in str(cell.value)]. *)
Definition is_question (v : option CValue) : bool :=
  truthy v && match v with Some x => Py.contains "?" (py_str x) | None => false end.

(** The entry built for the question cell at (r, c); the answer cell is
    [ws.cell(row=r, column=c + 1)], a Cell object (always truthy). *)
Definition question_entry (ws : Worksheet) (rc : nat * nat) (v : CValue)
  : QuestionEntry :=
  let '(r, c) := rc in
  let ans := cell_at ws r (c + 1) in
  mkQuestionEntry (coordinate r c) (py_str v)
    (Some (coordinate r (c + 1)))
    (if truthy (value ans) then match value ans with Some a => py_str a | None => "" end
     else "").

Definition sheet_questions (ws : Worksheet) : list QuestionEntry :=
  fold_left (fun acc row =>
    fold_left (fun acc rc =>
      let v := value (cell_at ws (fst rc) (snd rc)) in
      if is_question v then
        match v with
        | Some x => acc ++ [question_entry ws rc x]
        | None => acc
        end
      else acc) row acc)
    (iter_rows ws) [].

Definition questions_step (res : QuestionReport) (ws : Worksheet) : QuestionReport :=
  let sq := sheet_questions ws in
  match sq with
  | [] => res
  | _ => mkQuestionReport (qr_filename res) (total_questions res + length sq)
           (qr_worksheets res ++ [mkQuestionSheet (title ws) (length sq) sq])
  end.

Definition questions_of (filename : json) (wb : Workbook) : QuestionReport :=
  fold_left questions_step wb (mkQuestionReport filename 0 []).

(* ------------------------------------------------------------------------- *)
(** * ExcelAnalyzer.detect_hidden_content (scan part) *)

Record HiddenSheet := mkHiddenSheet {
  hs_sheet : string;
  hidden : bool;
  row_count : nat;
  column_count : nat;
  hidden_row_count : nat;
  hidden_column_count : nat;
  hidden_rows : list nat;
  hidden_columns : list string }.

Record HiddenReport := mkHiddenReport {
  hr_filename : json;
  total_hidden_rows : nat;
  total_hidden_columns : nat;
  hr_worksheets : list HiddenSheet }.

(** [for row_num in range(1, ws.max_row + 1)] collecting hidden rows. *)
Definition hidden_rows_of (ws : Worksheet) : list nat :=
  fold_left (fun acc row_num =>
    if row_hidden ws row_num then acc ++ [row_num] else acc)
    (seq 1 (max_row ws)) [].

(** [for col_num in range(1, ws.max_column + 1)] collecting hidden column
    letters. *)
Definition hidden_columns_of (ws : Worksheet) : list string :=
  fold_left (fun acc col_num =>
    let col_letter := column_letter col_num in
    if col_hidden ws col_letter then acc ++ [col_letter] else acc)
    (seq 1 (max_column ws)) [].

Definition hidden_sheet (ws : Worksheet) : HiddenSheet :=
  let hr := hidden_rows_of ws in
  let hc := hidden_columns_of ws in
  mkHiddenSheet (title ws) (String.eqb (sheet_state ws) "hidden")
    (max_row ws) (max_column ws) (length hr) (length hc)
    (firstn 50 hr) (firstn 50 hc).

Definition hidden_step (res : HiddenReport) (ws : Worksheet) : HiddenReport :=
  let hr := hidden_rows_of ws in
  let hc := hidden_columns_of ws in
  mkHiddenReport (hr_filename res)
    (total_hidden_rows res + length hr)
    (total_hidden_columns res + length hc)
    (hr_worksheets res ++ [hidden_sheet ws]).

Definition hidden_of (filename : json) (wb : Workbook) : HiddenReport :=
  fold_left hidden_step wb (mkHiddenReport filename 0 0 []).

(* ------------------------------------------------------------------------- *)
(** * The three loops as they run on a loaded workbook

    [wb[sheet_name]] may be a chartsheet, on which [ws.iter_rows()] and
    [ws.max_row] raise [AttributeError]; [cell.coordinate] and
    [get_column_letter(col_num)] raise [ValueError] on a column index above
    18278. *)

Definition chartsheet_error (attr : string) : exn :=
  AttributeError ("'Chartsheet' object has no attribute '" ^^ attr ^^ "'").

(** The comment entry dict; ["cell": cell.coordinate] is evaluated first. *)
Definition comment_entry_r (ws : Worksheet) (rc : nat * nat) (cm : Comment)
  : result CommentEntry :=
  let '(r, c) := rc in
  let cl := cell_at ws r c in
  cell <- cell_coordinate r c ;;
  Ok (mkCommentEntry cell
        (if truthy (value cl) then match value cl with Some v => py_str v | None => "" end
         else "")
        (ctext cm)
        (match cauthor cm with Some a => a | None => "Unknown" end)).

Definition sheet_comments_r (ws : Worksheet) : result (list CommentEntry) :=
  fold_m (fun acc row =>
    fold_m (fun acc rc =>
      match comment (cell_at ws (fst rc) (snd rc)) with
      | Some cm => entry <- comment_entry_r ws rc cm ;; Ok (acc ++ [entry])
      | None => Ok acc
      end) row acc)
    (iter_rows ws) [].

Definition comments_sheet_r (res : CommentReport) (sheet : Sheet) : result CommentReport :=
  match sheet with
  | Chart _ => Err (chartsheet_error "iter_rows")
  | Work ws =>
      sc <- sheet_comments_r ws ;;
      Ok (match sc with
          | [] => res
          | _ => mkCommentReport (cr_filename res) (total_comments res + length sc)
                   (cr_worksheets res ++ [mkCommentSheet (title ws) (length sc) sc])
          end)
  end.

Definition comments_r (filename : json) (wb : Book) : result CommentReport :=
  fold_m comments_sheet_r wb (mkCommentReport filename 0 []).

(** The question entry dict: [cell.coordinate], then
    [answer_cell.coordinate]. *)
Definition question_entry_r (ws : Worksheet) (rc : nat * nat) (v : CValue)
  : result QuestionEntry :=
  let '(r, c) := rc in
  let ans := cell_at ws r (c + 1) in
  cell <- cell_coordinate r c ;;
  answer_cell <- cell_coordinate r (c + 1) ;;
  Ok (mkQuestionEntry cell (py_str v) (Some answer_cell)
        (if truthy (value ans) then match value ans with Some a => py_str a | None => "" end
         else "")).

Definition sheet_questions_r (ws : Worksheet) : result (list QuestionEntry) :=
  fold_m (fun acc row =>
    fold_m (fun acc rc =>
      let v := value (cell_at ws (fst rc) (snd rc)) in
      if is_question v then
        match v with
        | Some x => entry <- question_entry_r ws rc x ;; Ok (acc ++ [entry])
        | None => Ok acc
        end
      else Ok acc) row acc)
    (iter_rows ws) [].

Definition questions_sheet_r (res : QuestionReport) (sheet : Sheet) : result QuestionReport :=
  match sheet with
  | Chart _ => Err (chartsheet_error "iter_rows")
  | Work ws =>
      sq <- sheet_questions_r ws ;;
      Ok (match sq with
          | [] => res
          | _ => mkQuestionReport (qr_filename res) (total_questions res + length sq)
                   (qr_worksheets res ++ [mkQuestionSheet (title ws) (length sq) sq])
          end)
  end.

Definition questions_r (filename : json) (wb : Book) : result QuestionReport :=
  fold_m questions_sheet_r wb (mkQuestionReport filename 0 []).

Definition hidden_columns_r (ws : Worksheet) : result (list string) :=
  fold_m (fun acc col_num =>
    col_letter <- get_column_letter col_num ;;
    Ok (if col_hidden ws col_letter then acc ++ [col_letter] else acc))
    (seq 1 (max_column ws)) [].

(** On a chartsheet the row loop's [ws.max_row] raises first. *)
Definition hidden_sheet_r (res : HiddenReport) (sheet : Sheet) : result HiddenReport :=
  match sheet with
  | Chart _ => Err (chartsheet_error "max_row")
  | Work ws =>
      let hr := hidden_rows_of ws in
      hc <- hidden_columns_r ws ;;
      Ok (mkHiddenReport (hr_filename res)
            (total_hidden_rows res + length hr)
            (total_hidden_columns res + length hc)
            (hr_worksheets res ++
               [mkHiddenSheet (title ws) (String.eqb (sheet_state ws) "hidden")
                  (max_row ws) (max_column ws) (length hr) (length hc)
                  (firstn 50 hr) (firstn 50 hc)]))
  end.

Definition hidden_r (filename : json) (wb : Book) : result HiddenReport :=
  fold_m hidden_sheet_r wb (mkHiddenReport filename 0 0 []).

(** Every column index a scan formats, the answer column of a question in
    the last column included, is at most 18278. *)
Definition columns_in_range (wb : Workbook) : bool :=
  forallb (fun ws => Nat.ltb (max_column ws) 18278) wb.

(* ------------------------------------------------------------------------- *)
(** * Comprehensive report *)

Record Summary := mkSummary {
  s_total_comments : nat;
  s_total_questions : nat;
  s_total_hidden_rows : nat;
  s_total_hidden_columns : nat;
  worksheet_count : nat }.

Record CompReport := mkCompReport {
  cp_filename : json;
  summary : Summary;
  cp_comments : CommentReport;
  cp_questions : QuestionReport;
  cp_hidden : HiddenReport }.

(** The report a [tools/call] produces, one constructor per tool. *)
Inductive Report :=
| RComments (r : CommentReport)
| RQuestions (r : QuestionReport)
| RHidden (r : HiddenReport)
| RComp (r : CompReport).

(* ------------------------------------------------------------------------- *)
(** * JSON objects as Python dicts *)

(** [key in d] and [d[key]] on a parsed JSON object. *)
Fixpoint lookup (kvs : list (string * json)) (k : string) : option json :=
  match kvs with
  | [] => None
  | (k', v) :: r => if String.eqb k k' then Some v else lookup r k
  end.

(** [d.get(key, default)] on a dict. *)
Definition dict_get (kvs : list (string * json)) (k : string) (d : json) : json :=
  match lookup kvs k with Some v => v | None => d end.

Definition py_type_name (j : json) : string :=
  match j with
  | JNull => "NoneType" | JBool _ => "bool" | JInt _ => "int"
  | JStr _ => "str" | JArr _ => "list" | JObj _ => "dict"
  end.

(** [x.get(key, default)] for any JSON value: only dicts have [.get]. *)
Definition py_get (x : json) (k : string) (d : json) : result json :=
  match x with
  | JObj kvs => Ok (dict_get kvs k d)
  | _ => Err (AttributeError ("'" ^^ py_type_name x ^^ "' object has no attribute 'get'"))
  end.

Definition hex_digit (n : nat) : ascii :=
  ascii_of_nat (if Nat.ltb n 10 then 48 + n else 87 + n).

Definition dquote : ascii := ascii_of_nat 34.
Definition backslash : ascii := ascii_of_nat 92.

(** One character of [repr(s)] quoted with [q] (a [JStr] holds code points
    0..255, one per character): backslash and the quote are escaped, tab,
    newline and carriage return written [\t], [\n], [\r], the other
    non-printable characters (below 32, 127..160 and 173) as [\xNN]. *)
Definition repr_char (q c : ascii) : string :=
  let n := nat_of_ascii c in
  if Ascii.eqb c q || Ascii.eqb c backslash then String backslash (String c EmptyString)
  else if Nat.eqb n 9 then String backslash "t"
  else if Nat.eqb n 10 then String backslash "n"
  else if Nat.eqb n 13 then String backslash "r"
  else if Nat.ltb n 32 || (Nat.leb 127 n && Nat.leb n 160) || Nat.eqb n 173 then
    String backslash (String "x"%char
      (String (hex_digit (Nat.div n 16)) (String (hex_digit (Nat.modulo n 16)) EmptyString)))
  else String c EmptyString.

Fixpoint repr_chars (q : ascii) (s : string) : string :=
  match s with
  | EmptyString => ""
  | String c r => repr_char q c ^^ repr_chars q r
  end.

(** [repr] of a [str]: single quotes, unless the text holds a single quote
    and no double quote. *)
Definition py_repr_str (s : string) : string :=
  let q := if Py.contains "'"%char s && negb (Py.contains dquote s) then dquote else "'"%char in
  String q (repr_chars q s ^^ String q EmptyString).

(** Python's [repr] and [str] of a JSON value (used in f-strings). *)
Fixpoint py_repr (j : json) : string :=
  match j with
  | JNull => "None"
  | JBool true => "True"
  | JBool false => "False"
  | JInt z => Py.str_Z z
  | JStr s => py_repr_str s
  | JArr l =>
      "[" ^^ (fix go (l : list json) : string :=
                match l with
                | [] => ""
                | [x] => py_repr x
                | x :: r => py_repr x ^^ ", " ^^ go r
                end) l ^^ "]"
  | JObj kvs =>
      "{" ^^ (fix go (kvs : list (string * json)) : string :=
                match kvs with
                | [] => ""
                | [(k, v)] => py_repr_str k ^^ ": " ^^ py_repr v
                | (k, v) :: r => py_repr_str k ^^ ": " ^^ py_repr v ^^ ", " ^^ go r
                end) kvs ^^ "}"
  end.

Definition py_str_json (j : json) : string :=
  match j with JStr s => s | _ => py_repr j end.

(** [x == "lit"] for a JSON value. *)
Definition is_str (x : json) (lit : string) : bool :=
  match x with JStr s => String.eqb s lit | _ => false end.

Definition jnat (n : nat) : json := JInt (Z.of_nat n).

(* ------------------------------------------------------------------------- *)
(** * Reports as the dicts [json.dumps] serialises *)

Definition comment_entry_json (e : CommentEntry) : json :=
  JObj [("cell", JStr (ce_cell e)); ("value", JStr (ce_value e));
        ("comment", JStr (ce_comment e)); ("author", JStr (ce_author e))].

Definition comment_report_json (r : CommentReport) : json :=
  JObj [("filename", cr_filename r); ("total_comments", jnat (total_comments r));
        ("worksheets", JArr (map (fun s =>
           JObj [("sheet", JStr (cs_sheet s)); ("comment_count", jnat (comment_count s));
                 ("comments", JArr (map comment_entry_json (comments s)))])
           (cr_worksheets r)))].

Definition question_entry_json (e : QuestionEntry) : json :=
  JObj [("cell", JStr (qe_cell e)); ("question", JStr (qe_question e));
        ("answer_cell", match qe_answer_cell e with Some a => JStr a | None => JNull end);
        ("answer", JStr (qe_answer e))].

Definition question_report_json (r : QuestionReport) : json :=
  JObj [("filename", qr_filename r); ("total_questions", jnat (total_questions r));
        ("worksheets", JArr (map (fun s =>
           JObj [("sheet", JStr (qs_sheet s)); ("question_count", jnat (question_count s));
                 ("questions", JArr (map question_entry_json (questions s)))])
           (qr_worksheets r)))].

Definition hidden_sheet_json (s : HiddenSheet) : json :=
  JObj [("sheet", JStr (hs_sheet s)); ("hidden", JBool (hidden s));
        ("row_count", jnat (row_count s)); ("column_count", jnat (column_count s));
        ("hidden_row_count", jnat (hidden_row_count s));
        ("hidden_column_count", jnat (hidden_column_count s));
        ("hidden_rows", JArr (map jnat (hidden_rows s)));
        ("hidden_columns", JArr (map JStr (hidden_columns s)))].

Definition hidden_report_json (r : HiddenReport) : json :=
  JObj [("filename", hr_filename r);
        ("total_hidden_rows", jnat (total_hidden_rows r));
        ("total_hidden_columns", jnat (total_hidden_columns r));
        ("worksheets", JArr (map hidden_sheet_json (hr_worksheets r)))].

Definition comp_report_json (r : CompReport) : json :=
  let s := summary r in
  JObj [("filename", cp_filename r);
        ("summary", JObj [("total_comments", jnat (s_total_comments s));
                          ("total_questions", jnat (s_total_questions s));
                          ("total_hidden_rows", jnat (s_total_hidden_rows s));
                          ("total_hidden_columns", jnat (s_total_hidden_columns s));
                          ("worksheet_count", jnat (worksheet_count s))]);
        ("comments", comment_report_json (cp_comments r));
        ("questions", question_report_json (cp_questions r));
        ("hidden_content", hidden_report_json (cp_hidden r))].

Definition report_json (r : Report) : json :=
  match r with
  | RComments c => comment_report_json c
  | RQuestions q => question_report_json q
  | RHidden h => hidden_report_json h
  | RComp c => comp_report_json c
  end.

(* ------------------------------------------------------------------------- *)
(** * TOOLS *)

Definition filename_schema : json :=
  JObj [("type", JStr "object");
        ("properties", JObj [("filename", JObj [("type", JStr "string");
                               ("description", JStr "Workbook filename (.xlsx file)")])]);
        ("required", JArr [JStr "filename"])].

Definition tool_descriptor (name description : string) : json :=
  JObj [("name", JStr name); ("description", JStr description);
        ("inputSchema", filename_schema)].

Definition TOOLS : list json := [
  tool_descriptor "extract_comments"
    "Extract all Excel comments from a workbook. Returns comments with cell location, content, and author.";
  tool_descriptor "extract_questions"
    "Find all cells containing questions (cells with '?'). Automatically detects answers in adjacent cells.";
  tool_descriptor "detect_hidden_content"
    "List all hidden rows, columns, and worksheets. Shows which content is hidden in the workbook.";
  tool_descriptor "comprehensive_analysis"
    "Full workbook analysis - extracts comments, questions, hidden content, and provides summary statistics."
].

(** The [name] field of a tool descriptor. *)
Definition descriptor_name (d : json) : option json :=
  match d with JObj kvs => lookup kvs "name" | _ => None end.

(* ------------------------------------------------------------------------- *)
(** * JSON-RPC responses *)

Definition ok_response (req_id result : json) : json :=
  JObj [("jsonrpc", JStr "2.0"); ("id", req_id); ("result", result)].

Definition error_response (req_id : json) (code : Z) (message data : string) : json :=
  JObj [("jsonrpc", JStr "2.0"); ("id", req_id);
        ("error", JObj [("code", JInt code); ("message", JStr message);
                        ("data", JStr data)])].

Definition initialize_result : json :=
  JObj [("protocolVersion", JStr "2024-11-05");
        ("capabilities", JObj [("tools", JObj [])]);
        ("serverInfo", JObj [("name", JStr "excel-python-mcp"); ("version", JStr "1.0.0")])].

(** A line of [sys.stdin]: a Python [str], as its code points. *)
Definition pystr := list N.

(** A [string] literal as a [str] (its characters as code points 0..255). *)
Definition py_line (s : string) : pystr :=
  map (fun c => N.of_nat (nat_of_ascii c)) (list_ascii_of_string s).

(** The code points [str.strip()] removes: those of [str.isspace()]
    (Python's [_PyUnicode_IsWhitespace]). *)
Definition is_py_space (c : N) : bool :=
  ((9 <=? c) && (c <=? 13))%N || ((28 <=? c) && (c <=? 32))%N ||
  (c =? 133)%N || (c =? 160)%N || (c =? 5760)%N ||
  ((8192 <=? c) && (c <=? 8202))%N ||
  (c =? 8232)%N || (c =? 8233)%N || (c =? 8239)%N || (c =? 8287)%N || (c =? 12288)%N.

(** [not line.strip()]. *)
Fixpoint is_blank (line : pystr) : bool :=
  match line with
  | [] => true
  | c :: r => is_py_space c && is_blank r
  end.

(** Events of the process: a line read from stdin, a line printed to stdout,
    a line printed to stderr. *)
Inductive event :=
| ReadLine (l : pystr)
| WriteOut (l : string)
| WriteErr (l : string).


(** Fields of a response object: its [id], its [error.code] and its
    [error.data]. *)
Definition resp_id (r : json) : option json :=
  match r with JObj kvs => lookup kvs "id" | _ => None end.

Definition resp_error (r : json) : option (list (string * json)) :=
  match r with
  | JObj kvs => match lookup kvs "error" with Some (JObj e) => Some e | _ => None end
  | _ => None
  end.

Definition resp_error_code (r : json) : option Z :=
  match resp_error r with
  | Some e => match lookup e "code" with Some (JInt c) => Some c | _ => None end
  | None => None
  end.

Definition resp_error_data (r : json) : option json :=
  match resp_error r with Some e => lookup e "data" | None => None end.


(** Every read line is followed by exactly one stdout line before the next
    read. *)
Fixpoint strictly_paced (evs : list event) : bool :=
  match evs with
  | [] => true
  | ReadLine _ :: WriteOut _ :: rest => strictly_paced rest
  | _ => false
  end.

(** Every non-blank read line is followed by exactly one stdout line before
    the next read; a blank line by none. *)
Fixpoint paced (evs : list event) : bool :=
  match evs with
  | [] => true
  | ReadLine l :: rest =>
      if is_blank l then paced rest
      else match rest with
           | WriteOut _ :: rest' => paced rest'
           | _ => false
           end
  | _ => false
  end.

Definition stdout_lines (evs : list event) : list string :=
  flat_map (fun ev => match ev with WriteOut l => [l] | _ => [] end) evs.

(** A report with its [filename] field (and those of its sub-reports)
    replaced. *)
Definition set_comments_filename (f : json) (c : CommentReport) : CommentReport :=
  mkCommentReport f (total_comments c) (cr_worksheets c).
Definition set_questions_filename (f : json) (q : QuestionReport) : QuestionReport :=
  mkQuestionReport f (total_questions q) (qr_worksheets q).
Definition set_hidden_filename (f : json) (h : HiddenReport) : HiddenReport :=
  mkHiddenReport f (total_hidden_rows h) (total_hidden_columns h) (hr_worksheets h).

Definition set_filename (f : json) (r : Report) : Report :=
  match r with
  | RComments c => RComments (set_comments_filename f c)
  | RQuestions q => RQuestions (set_questions_filename f q)
  | RHidden h => RHidden (set_hidden_filename f h)
  | RComp c => RComp (mkCompReport f (summary c)
                        (set_comments_filename f (cp_comments c))
                        (set_questions_filename f (cp_questions c))
                        (set_hidden_filename f (cp_hidden c)))
  end.


Definition nonempty {A} (l : list A) : bool :=
  match l with [] => false | _ => true end.

(** [if cell.comment:] for the cell at a position. *)
Definition has_comment (ws : Worksheet) (rc : nat * nat) : bool :=
  match comment (cell_at ws (fst rc) (snd rc)) with Some _ => true | None => false end.

(** ['?' in str(cell.value)] for the cell at a position. *)
Definition has_question (ws : Worksheet) (rc : nat * nat) : bool :=
  match value (cell_at ws (fst rc) (snd rc)) with
  | Some v => Py.contains "?" (py_str v)
  | None => false
  end.



(** [key in response] for a response object. *)
Definition resp_field (r : json) (k : string) : option json :=
  match r with JObj kvs => lookup kvs k | _ => None end.

(* ------------------------------------------------------------------------- *)
(** * Concrete workbooks and library behaviours used to exercise the model *)

(** Sheet1 with A1 = "Is this done?" and B1 = "Yes". *)
Definition ws_question : Worksheet :=
  mkWorksheet "Sheet1" "visible" 1 2
    (fun r c => match r, c with
                | 1, 1 => mkCell (Some (VStr "Is this done?")) None
                | 1, 2 => mkCell (Some (VStr "Yes")) None
                | _, _ => empty_cell
                end)
    (fun _ => false) (fun _ => false).

(** A sheet whose 51 rows are all hidden. *)
Definition ws_rows51 : Worksheet :=
  mkWorksheet "Sheet1" "visible" 51 1 (fun _ _ => empty_cell)
    (fun r => Nat.leb 1 r && Nat.leb r 51) (fun _ => false).

(** A1 holds the number 0 and carries a comment by Ann. *)
Definition ws_zero : Worksheet :=
  mkWorksheet "Sheet1" "visible" 1 1
    (fun r c => match r, c with
                | 1, 1 => mkCell (Some (VInt 0)) (Some (mkComment "note" (Some "Ann")))
                | _, _ => empty_cell
                end)
    (fun _ => false) (fun _ => false).

(** Sheet1 with A1 = "Is this done?" and B1 = 0. *)
Definition ws_answer_zero : Worksheet :=
  mkWorksheet "Sheet1" "visible" 1 2
    (fun r c => match r, c with
                | 1, 1 => mkCell (Some (VStr "Is this done?")) None
                | 1, 2 => mkCell (Some (VInt 0)) None
                | _, _ => empty_cell
                end)
    (fun _ => false) (fun _ => false).

(** A sheet whose used range reaches column 18279 (cells written without
    an [r] attribute are placed by openpyxl's reader one column after the
    other, with no upper bound). *)
Definition ws_wide : Worksheet :=
  mkWorksheet "Wide" "visible" 1 18279 (fun _ _ => empty_cell)
    (fun _ => false) (fun _ => false).

(** A very-hidden sheet with row 5 hidden. *)
Definition ws_very_hidden : Worksheet :=
  mkWorksheet "Secret" "veryHidden" 6 1 (fun _ _ => empty_cell)
    (fun r => Nat.eqb r 5) (fun _ => false).

(** Stand-ins for openpyxl, base64 and json: any bytes load [ws_question],
    the empty buffer is not a zip file; [loads] knows one line. *)
Definition ex_parse (b : list Byte.byte) : Book + string :=
  match b with [] => inr "File is not a zip file" | _ => inl [Work ws_question] end.

Definition ex_b64decode (j : json) : list Byte.byte + string :=
  match j with
  | JStr _ => inl [Byte.x50; Byte.x4b]
  | _ => inr ("argument should be a bytes-like object or ASCII string, not '"
              ^^ py_type_name j ^^ "'")
  end.

Definition ex_loads (line : pystr) : json + string :=
  if list_eq_dec N.eq_dec line (py_line "ping") then inl (JObj [("method", JStr "initialize"); ("id", JInt 7)])
  else inr "Expecting value: line 1 column 1 (char 0)".

Definition ex_dumps (indent : option nat) (j : json) : string := py_repr j.

(** The exceptions the three loops raise on a loaded workbook. *)
Definition scan_exn (e : exn) : Prop :=
  match e with
  | ValueError m => exists k, m = "Invalid column index " ^^ k
  | _ => True
  end.

(* ------------------------------------------------------------------------- *)
(** * The server, over the libraries it calls *)

Section Server.

(** [openpyxl.load_workbook] on the staged bytes: a workbook, or the
    message of the exception it raised. *)
Variable parse_xlsx : list Byte.byte -> Book + string.
(** [base64.b64decode(request["fileContent"])]: the bytes, or the message
    of the exception raised. *)
Variable b64decode : json -> list Byte.byte + string.
(** [json.loads(line)]: the value, or the message of the exception raised. *)
Variable json_loads : pystr -> json + string.
(** [json.dumps(obj)] and [json.dumps(obj, indent=2)]. *)
Variable json_dumps : option nat -> json -> string.

(** [ExcelAnalyzer.load_workbook_from_buffer]: the buffer is written to a
    temporary file first; [tmp_file.write(None)] raises [TypeError]. *)
Definition load_workbook_from_buffer (file_buffer : option (list Byte.byte))
  : result Book :=
  match file_buffer with
  | None => Err (TypeError "a bytes-like object is required, not 'NoneType'")
  | Some b =>
      match parse_xlsx b with
      | inl wb => Ok wb
      | inr msg => Err (LoadError msg)
      end
  end.

Definition extract_comments (filename : json) (file_buffer : option (list Byte.byte))
  : result CommentReport :=
  wb <- load_workbook_from_buffer file_buffer ;; comments_r filename wb.

Definition extract_questions (filename : json) (file_buffer : option (list Byte.byte))
  : result QuestionReport :=
  wb <- load_workbook_from_buffer file_buffer ;; questions_r filename wb.

Definition detect_hidden_content (filename : json) (file_buffer : option (list Byte.byte))
  : result HiddenReport :=
  wb <- load_workbook_from_buffer file_buffer ;; hidden_r filename wb.

(** Three independent passes, each loading the workbook again. *)
Definition comprehensive_analysis (filename : json) (file_buffer : option (list Byte.byte))
  : result CompReport :=
  comments <- extract_comments filename file_buffer ;;
  questions <- extract_questions filename file_buffer ;;
  hidden <- detect_hidden_content filename file_buffer ;;
  Ok (mkCompReport filename
        (mkSummary (total_comments comments) (total_questions questions)
           (total_hidden_rows hidden) (total_hidden_columns hidden)
           (length (hr_worksheets hidden)))
        comments questions hidden).

Definition unknown_tool (tool_name : json) : exn :=
  ValueError ("Unknown tool: " ^^ py_str_json tool_name).

Definition unknown_method (method : json) : exn :=
  ValueError ("Unknown method: " ^^ py_str_json method).

(** The [if tool_name == ...] chain of [tools/call]. *)
Definition run_tool (tool_name filename : json) (file_buffer : option (list Byte.byte))
  : result Report :=
  if is_str tool_name "extract_comments" then
    rmap RComments (extract_comments filename file_buffer)
  else if is_str tool_name "extract_questions" then
    rmap RQuestions (extract_questions filename file_buffer)
  else if is_str tool_name "detect_hidden_content" then
    rmap RHidden (detect_hidden_content filename file_buffer)
  else if is_str tool_name "comprehensive_analysis" then
    rmap RComp (comprehensive_analysis filename file_buffer)
  else Err (unknown_tool tool_name).

(** The body of the [try] in [handle_request]. *)
Definition dispatch (request : list (string * json)) (method params req_id : json)
  : result json :=
  if is_str method "initialize" then Ok (ok_response req_id initialize_result)
  else if is_str method "tools/list" then
    Ok (ok_response req_id (JObj [("tools", JArr TOOLS)]))
  else if is_str method "tools/call" then
    tool_name <- py_get params "name" JNull ;;
    arguments <- py_get params "arguments" (JObj []) ;;
    filename <- py_get arguments "filename" JNull ;;
    file_buffer <- (match lookup request "fileContent" with
                    | Some fc =>
                        match b64decode fc with
                        | inl b => Ok (Some b)
                        | inr msg => Err (DecodeError msg)
                        end
                    | None => Ok None
                    end) ;;
    res <- run_tool tool_name filename file_buffer ;;
    Ok (ok_response req_id
          (JObj [("content", JStr (json_dumps (Some 2) (report_json res)))]))
  else Err (unknown_method method).

(** [handle_request]: the three [request.get] calls stand before the [try],
    so a request that is not a dict raises out of it. *)
Definition handle_request (request : json) : result json :=
  match request with
  | JObj kvs =>
      let method := dict_get kvs "method" JNull in
      let params := dict_get kvs "params" (JObj []) in
      let req_id := dict_get kvs "id" (JInt 0) in
      match dispatch kvs method params req_id with
      | Ok resp => Ok resp
      | Err e => Ok (error_response req_id (-32603) "Internal error" (str_exn e))
      end
  | _ => Err (AttributeError ("'" ^^ py_type_name request ^^ "' object has no attribute 'get'"))
  end.

(** The response object [main] builds for a non-blank line. *)
Definition line_response (line : pystr) : json :=
  match json_loads line with
  | inr msg => error_response (JInt 0) (-32700) "Parse error" msg
  | inl request =>
      match handle_request request with
      | Ok response => response
      | Err e => error_response (JInt 0) (-32700) "Parse error" (str_exn e)
      end
  end.

(** One iteration of [for line in sys.stdin]. *)
Definition main_step (line : pystr) : list event :=
  ReadLine line ::
  (if is_blank line then []
   else [WriteOut (json_dumps None (line_response line))]).

Fixpoint serve (lines : list pystr) : list event :=
  match lines with
  | [] => []
  | line :: rest => main_step line ++ serve rest
  end.

Definition main (stdin : list pystr) : list event :=
  WriteErr "Python Excel Analysis MCP Server starting..." :: serve stdin.

(* ------------------------------------------------------------------------- *)
(** * Loops as list functions *)

Lemma fold_append_flat_map {A B} (step : list B -> A -> list B) (k : A -> list B) :
  (forall acc x, step acc x = acc ++ k x) ->
  forall l acc, fold_left step l acc = acc ++ flat_map k l.
Proof.
  intros Hstep l; induction l as [|x l IH]; intros acc; simpl.
  - now rewrite app_nil_r.
  - now rewrite IH, Hstep, app_assoc.
Qed.

Lemma flat_map_rows {B} (k : nat * nat -> list B) (rows cols : list nat) :
  flat_map (flat_map k) (map (fun r => map (fun c => (r, c)) cols) rows)
  = flat_map k (list_prod rows cols).
Proof.
  induction rows as [|r rows IH]; simpl; [reflexivity|].
  now rewrite flat_map_app, IH.
Qed.

(** Row-major traversal: the nested loops over [iter_rows] append, cell by
    cell, what [k] gives for the cell. *)
Lemma iter_rows_fold {B} (ws : Worksheet) (step : list B -> nat * nat -> list B)
  (k : nat * nat -> list B) :
  (forall acc x, step acc x = acc ++ k x) ->
  fold_left (fun acc row => fold_left step row acc) (iter_rows ws) []
  = flat_map k (list_prod (seq 1 (max_row ws)) (seq 1 (max_column ws))).
Proof.
  intros Hstep.
  rewrite (fold_append_flat_map _ (flat_map k)).
  - simpl. unfold iter_rows. apply flat_map_rows.
  - intros acc row. now apply fold_append_flat_map.
Qed.

Definition cells (ws : Worksheet) : list (nat * nat) :=
  list_prod (seq 1 (max_row ws)) (seq 1 (max_column ws)).

Lemma sheet_comments_eq (ws : Worksheet) :
  sheet_comments ws =
  flat_map (fun rc => match comment (cell_at ws (fst rc) (snd rc)) with
                      | Some cm => [comment_entry ws rc cm]
                      | None => []
                      end) (cells ws).
Proof.
  unfold sheet_comments, cells. apply iter_rows_fold.
  intros acc rc. destruct (comment _); simpl; auto using app_nil_r.
Qed.

Lemma sheet_questions_eq (ws : Worksheet) :
  sheet_questions ws =
  flat_map (fun rc => let v := value (cell_at ws (fst rc) (snd rc)) in
                      if is_question v then
                        match v with Some x => [question_entry ws rc x] | None => [] end
                      else []) (cells ws).
Proof.
  unfold sheet_questions, cells. apply iter_rows_fold.
  intros acc rc. destruct (is_question _); [destruct (value _)|]; simpl; auto using app_nil_r.
Qed.

Lemma hidden_rows_of_eq (ws : Worksheet) :
  hidden_rows_of ws = filter (row_hidden ws) (seq 1 (max_row ws)).
Proof.
  unfold hidden_rows_of.
  rewrite (fold_append_flat_map _ (fun r => if row_hidden ws r then [r] else [])).
  - simpl. induction (seq 1 (max_row ws)) as [|r l IH]; simpl; [reflexivity|].
    destruct (row_hidden ws r); simpl; now rewrite IH.
  - intros acc r. destruct (row_hidden ws r); auto using app_nil_r.
Qed.

Lemma hidden_columns_of_eq (ws : Worksheet) :
  hidden_columns_of ws =
  filter (col_hidden ws) (map column_letter (seq 1 (max_column ws))).
Proof.
  unfold hidden_columns_of.
  rewrite (fold_append_flat_map _
             (fun c => if col_hidden ws (column_letter c)
                       then [column_letter c] else [])).
  - simpl. induction (seq 1 (max_column ws)) as [|c l IH]; simpl; [reflexivity|].
    destruct (col_hidden ws _); simpl; now rewrite IH.
  - intros acc c. simpl. destruct (col_hidden ws _); auto using app_nil_r.
Qed.

(** The sheet loops of the three passes. *)
Lemma comments_of_eq (filename : json) (wb : Workbook) :
  comments_of filename wb =
  mkCommentReport filename
    (list_sum (map (fun ws => length (sheet_comments ws)) wb))
    (flat_map (fun ws => match sheet_comments ws with
                         | [] => []
                         | sc => [mkCommentSheet (title ws) (length sc) sc]
                         end) wb).
Proof.
  unfold comments_of.
  enough (H : forall t acc, fold_left comments_step wb (mkCommentReport filename t acc)
    = mkCommentReport filename (t + list_sum (map (fun ws => length (sheet_comments ws)) wb))
        (acc ++ flat_map (fun ws => match sheet_comments ws with
                                    | [] => []
                                    | sc => [mkCommentSheet (title ws) (length sc) sc]
                                    end) wb))
    by (rewrite H; reflexivity).
  induction wb as [|ws wb IH]; intros t acc; simpl.
  - now rewrite Nat.add_0_r, app_nil_r.
  - unfold comments_step at 2. destruct (sheet_comments ws) as [|c l] eqn:E; simpl.
    + now rewrite IH.
    + rewrite IH, <- app_assoc. simpl. f_equal. lia.
Qed.

Lemma questions_of_eq (filename : json) (wb : Workbook) :
  questions_of filename wb =
  mkQuestionReport filename
    (list_sum (map (fun ws => length (sheet_questions ws)) wb))
    (flat_map (fun ws => match sheet_questions ws with
                         | [] => []
                         | sq => [mkQuestionSheet (title ws) (length sq) sq]
                         end) wb).
Proof.
  unfold questions_of.
  enough (H : forall t acc, fold_left questions_step wb (mkQuestionReport filename t acc)
    = mkQuestionReport filename (t + list_sum (map (fun ws => length (sheet_questions ws)) wb))
        (acc ++ flat_map (fun ws => match sheet_questions ws with
                                    | [] => []
                                    | sq => [mkQuestionSheet (title ws) (length sq) sq]
                                    end) wb))
    by (rewrite H; reflexivity).
  induction wb as [|ws wb IH]; intros t acc; simpl.
  - now rewrite Nat.add_0_r, app_nil_r.
  - unfold questions_step at 2. destruct (sheet_questions ws) as [|c l] eqn:E; simpl.
    + now rewrite IH.
    + rewrite IH, <- app_assoc. simpl. f_equal. lia.
Qed.

Lemma hidden_of_eq (filename : json) (wb : Workbook) :
  hidden_of filename wb =
  mkHiddenReport filename
    (list_sum (map (fun ws => length (hidden_rows_of ws)) wb))
    (list_sum (map (fun ws => length (hidden_columns_of ws)) wb))
    (map hidden_sheet wb).
Proof.
  unfold hidden_of.
  enough (H : forall t u acc, fold_left hidden_step wb (mkHiddenReport filename t u acc)
    = mkHiddenReport filename
        (t + list_sum (map (fun ws => length (hidden_rows_of ws)) wb))
        (u + list_sum (map (fun ws => length (hidden_columns_of ws)) wb))
        (acc ++ map hidden_sheet wb))
    by (rewrite H; reflexivity).
  induction wb as [|ws wb IH]; intros t u acc; simpl.
  - now rewrite !Nat.add_0_r, app_nil_r.
  - unfold hidden_step at 2. simpl. rewrite IH. simpl. rewrite <- app_assoc. f_equal; lia.
Qed.


Lemma is_question_contains (v : option CValue) :
  is_question v = match v with Some x => Py.contains "?" (py_str x) | None => false end.
Proof.
  unfold is_question.
  destruct v as [[s|z|b]|]; simpl; auto.
  - destruct s; reflexivity.
  - destruct z; reflexivity.
  - destruct b; reflexivity.
Qed.

Lemma in_flat_map_sheet {A S} (f : Worksheet -> list A) (mk : Worksheet -> nat -> list A -> S)
  (P : S -> Prop) (wb : Workbook) :
  (forall ws, f ws <> [] -> P (mk ws (length (f ws)) (f ws))) ->
  Forall P (flat_map (fun ws => match f ws with [] => [] | l => [mk ws (length l) l] end) wb).
Proof.
  intros H. apply Forall_forall. intros s Hin.
  apply in_flat_map in Hin as [ws [_ Hin]].
  specialize (H ws). destruct (f ws) as [|x l]; [contradiction|].
  destruct Hin as [<-|[]]. apply H. discriminate.
Qed.

(** The raising loops run as the scans when nothing raises. *)
Lemma fold_m_ok {A B} (f : B -> A -> result B) (g : B -> A -> B) (l : list A) (b : B) :
  (forall acc x, In x l -> f acc x = Ok (g acc x)) ->
  fold_m f l b = Ok (fold_left g l b).
Proof.
  revert b. induction l as [|x l IH]; intros b H; cbn; [reflexivity|].
  rewrite H by (left; reflexivity). cbn. apply IH. intros acc y Hy. apply H. now right.
Qed.

Lemma fold_m_ok_map {A A' B} (f : B -> A' -> result B) (g : B -> A -> B) (h : A -> A')
  (l : list A) (b : B) :
  (forall acc x, In x l -> f acc (h x) = Ok (g acc x)) ->
  fold_m f (map h l) b = Ok (fold_left g l b).
Proof.
  revert b. induction l as [|x l IH]; intros b H; cbn; [reflexivity|].
  rewrite H by (left; reflexivity). cbn. apply IH. intros acc y Hy. apply H. now right.
Qed.

Lemma fold_m_app {A B} (f : B -> A -> result B) (l1 l2 : list A) (b : B) :
  fold_m f (l1 ++ l2) b = (b' <- fold_m f l1 b ;; fold_m f l2 b').
Proof.
  revert b. induction l1 as [|x l1 IH]; intros b; cbn; [reflexivity|].
  destruct (f b x); cbn; auto.
Qed.

Lemma fold_m_err_inv {A B} (P : exn -> Prop) (f : B -> A -> result B) (l : list A) :
  (forall acc x e, In x l -> f acc x = Err e -> P e) ->
  forall b e, fold_m f l b = Err e -> P e.
Proof.
  induction l as [|x l IH]; intros H b e; cbn; [discriminate|].
  destruct (f b x) as [b'|e'] eqn:E; cbn.
  - apply IH. intros acc y e'' Hy. apply H. now right.
  - intros [= <-]. eapply H; [left; reflexivity|exact E].
Qed.

Lemma get_column_letter_ok (n : nat) :
  1 <= n <= 18278 -> get_column_letter n = Ok (column_letter n).
Proof.
  intros Hn. unfold get_column_letter.
  rewrite (proj2 (Nat.leb_le 1 n)), (proj2 (Nat.leb_le n 18278)) by lia. reflexivity.
Qed.

Lemma get_column_letter_out (n : nat) :
  18278 < n -> get_column_letter n = Err (ValueError ("Invalid column index " ^^ Py.str_nat n)).
Proof.
  intros Hn. unfold get_column_letter.
  rewrite (proj2 (Nat.leb_gt n 18278)) by lia. now rewrite andb_false_r.
Qed.





Lemma hidden_columns_r_ok (ws : Worksheet) :
  max_column ws <= 18278 -> hidden_columns_r ws = Ok (hidden_columns_of ws).
Proof.
  intros Hm. unfold hidden_columns_r, hidden_columns_of.
  apply fold_m_ok. intros acc n Hn. apply in_seq in Hn.
  rewrite get_column_letter_ok by lia. reflexivity.
Qed.

Lemma columns_in_range_spec (wb : Workbook) (ws : Worksheet) :
  columns_in_range wb = true -> In ws wb -> max_column ws < 18278.
Proof.
  intros H Hin. unfold columns_in_range in H. rewrite forallb_forall in H.
  apply Nat.ltb_lt. exact (H ws Hin).
Qed.



Lemma hidden_r_ok (filename : json) (wb : Workbook) :
  columns_in_range wb = true -> hidden_r filename (map Work wb) = Ok (hidden_of filename wb).
Proof.
  intros H. unfold hidden_r, hidden_of. apply fold_m_ok_map. intros acc ws Hin.
  pose proof (columns_in_range_spec wb ws H Hin).
  cbn [hidden_sheet_r]. rewrite hidden_columns_r_ok by lia. cbn.
  unfold hidden_step, hidden_sheet. reflexivity.
Qed.


(** A successful hidden-content loop saw only worksheets and lists each. *)
Lemma hidden_r_worksheets (filename : json) (wb : Book) (h : HiddenReport) :
  hidden_r filename wb = Ok h ->
  Forall (fun s => exists ws, s = Work ws) wb /\ length (hr_worksheets h) = length wb.
Proof.
  unfold hidden_r.
  enough (E : forall res, fold_m hidden_sheet_r wb res = Ok h ->
            Forall (fun s => exists ws, s = Work ws) wb /\
            length (hr_worksheets h) = length (hr_worksheets res) + length wb)
    by (intros Hh; apply E in Hh; exact Hh).
  induction wb as [|[ws|name] wb IH]; intros res Hres; cbn in Hres.
  - injection Hres as <-. split; [constructor|]. cbn. lia.
  - destruct (hidden_columns_r ws) as [hc|e]; cbn in Hres; [|discriminate].
    apply IH in Hres as [Hf Hl]. split; [constructor; eauto|].
    rewrite Hl. cbn. rewrite length_app. cbn. lia.
  - discriminate.
Qed.

(** The messages the loops raise: the chartsheet [AttributeError]s and
    [get_column_letter]'s [ValueError]. *)
Lemma get_column_letter_err (n : nat) (e : exn) :
  get_column_letter n = Err e -> scan_exn e.
Proof.
  unfold get_column_letter. destruct (_ && _); [discriminate|].
  intros [= <-]. cbn. eauto.
Qed.

Lemma cell_coordinate_err (r c : nat) (e : exn) :
  cell_coordinate r c = Err e -> scan_exn e.
Proof.
  unfold cell_coordinate. destruct (get_column_letter c) eqn:E; cbn; [discriminate|].
  intros [= <-]. eapply get_column_letter_err; eauto.
Qed.

Lemma scans_err (filename : json) (wb : Book) (e : exn) :
  (comments_r filename wb = Err e \/ questions_r filename wb = Err e \/
   hidden_r filename wb = Err e) -> scan_exn e.
Proof.
  intros [H|[H|H]]; revert H; [unfold comments_r|unfold questions_r|unfold hidden_r];
    apply fold_m_err_inv; intros acc [ws|name] e' _; cbn; try (intros [= <-]; exact I).
  - destruct (sheet_comments_r ws) as [sc|e''] eqn:E; cbn; [discriminate|]. intros [= <-].
    revert E. unfold sheet_comments_r. apply fold_m_err_inv. intros acc' row e0 _.
    apply fold_m_err_inv. intros acc'' [r c] e1 _. cbn [fst snd].
    destruct (comment _) as [cm|]; [|discriminate].
    unfold comment_entry_r. destruct (cell_coordinate r c) eqn:Ec; cbn; [discriminate|].
    intros [= <-]. eapply cell_coordinate_err; eauto.
  - destruct (sheet_questions_r ws) as [sq|e''] eqn:E; cbn; [discriminate|]. intros [= <-].
    revert E. unfold sheet_questions_r. apply fold_m_err_inv. intros acc' row e0 _.
    apply fold_m_err_inv. intros acc'' [r c] e1 _. cbn [fst snd].
    destruct (is_question _); [|discriminate].
    destruct (value _) as [v|]; [|discriminate].
    unfold question_entry_r.
    destruct (cell_coordinate r c) eqn:Ec; cbn; [|intros [= <-]; eapply cell_coordinate_err; eauto].
    destruct (cell_coordinate r (c + 1)) eqn:Ec'; cbn; [discriminate|].
    intros [= <-]. eapply cell_coordinate_err; eauto.
  - destruct (hidden_columns_r ws) as [hc|e''] eqn:E; cbn; [discriminate|]. intros [= <-].
    revert E. unfold hidden_columns_r. apply fold_m_err_inv. intros acc' n e0 _.
    destruct (get_column_letter n) eqn:Eg; cbn; [discriminate|].
    intros [= <-]. eapply get_column_letter_err; eauto.
Qed.

(** The loops read the filename only to store it. *)
Lemma comments_r_filename (f f' : json) (wb : Book) :
  comments_r f wb = rmap (set_comments_filename f) (comments_r f' wb).
Proof.
  unfold comments_r.
  enough (E : forall res, fold_m comments_sheet_r wb (set_comments_filename f res) =
                          rmap (set_comments_filename f) (fold_m comments_sheet_r wb res))
    by exact (E (mkCommentReport f' 0 [])).
  induction wb as [|[ws|name] wb IH]; intros res; cbn; [reflexivity| |reflexivity].
  destruct (sheet_comments_r ws) as [[|x l]|e]; cbn; [apply IH| |reflexivity].
  apply (IH (mkCommentReport (cr_filename res) _ _)).
Qed.

Lemma questions_r_filename (f f' : json) (wb : Book) :
  questions_r f wb = rmap (set_questions_filename f) (questions_r f' wb).
Proof.
  unfold questions_r.
  enough (E : forall res, fold_m questions_sheet_r wb (set_questions_filename f res) =
                          rmap (set_questions_filename f) (fold_m questions_sheet_r wb res))
    by exact (E (mkQuestionReport f' 0 [])).
  induction wb as [|[ws|name] wb IH]; intros res; cbn; [reflexivity| |reflexivity].
  destruct (sheet_questions_r ws) as [[|x l]|e]; cbn; [apply IH| |reflexivity].
  apply (IH (mkQuestionReport (qr_filename res) _ _)).
Qed.

Lemma hidden_r_filename (f f' : json) (wb : Book) :
  hidden_r f wb = rmap (set_hidden_filename f) (hidden_r f' wb).
Proof.
  unfold hidden_r.
  enough (E : forall res, fold_m hidden_sheet_r wb (set_hidden_filename f res) =
                          rmap (set_hidden_filename f) (fold_m hidden_sheet_r wb res))
    by exact (E (mkHiddenReport f' 0 0 [])).
  induction wb as [|[ws|name] wb IH]; intros res; cbn; [reflexivity| |reflexivity].
  destruct (hidden_columns_r ws) as [hc|e]; cbn; [|reflexivity].
  apply (IH (mkHiddenReport (hr_filename res) _ _ _)).
Qed.

(** C2: every per-sheet hidden list of [detect_hidden_content] is the first
    50 of the hidden rows (columns) in ascending order, while the per-sheet
    counts and the report totals are the true, untruncated counts. *)
Theorem hidden_lists_capped_counts_true (filename : json) (wb : Workbook) :
  hr_worksheets (hidden_of filename wb) = map hidden_sheet wb /\
  Forall (fun ws =>
    let s := hidden_sheet ws in
    let rows := filter (row_hidden ws) (seq 1 (max_row ws)) in
    let cols := filter (col_hidden ws) (map column_letter (seq 1 (max_column ws))) in
    length (hidden_rows s) <= 50 /\ length (hidden_columns s) <= 50 /\
    hidden_rows s = firstn 50 rows /\ hidden_columns s = firstn 50 cols /\
    hidden_row_count s = length rows /\ hidden_column_count s = length cols) wb /\
  total_hidden_rows (hidden_of filename wb)
    = list_sum (map (fun ws => length (filter (row_hidden ws) (seq 1 (max_row ws)))) wb) /\
  total_hidden_columns (hidden_of filename wb)
    = list_sum (map (fun ws => length (filter (col_hidden ws)
                                 (map column_letter (seq 1 (max_column ws))))) wb).
Proof.
  rewrite hidden_of_eq. cbn [hr_worksheets total_hidden_rows total_hidden_columns].
  repeat split.
  - apply Forall_forall. intros ws _. unfold hidden_sheet.
    cbn [hidden_rows hidden_columns hidden_row_count hidden_column_count].
    rewrite hidden_rows_of_eq, hidden_columns_of_eq.
    repeat split; auto; rewrite length_firstn; lia.
  - f_equal. apply map_ext. intros ws. now rewrite hidden_rows_of_eq.
  - f_equal. apply map_ext. intros ws. now rewrite hidden_columns_of_eq.
Qed.

(** C3 (refuted as stated): with 51 hidden rows the sheet entry reports
    [hidden_row_count = 51] next to a [hidden_rows] list of length 50. *)
Lemma hidden_count_differs_from_list_length :
  map (fun s => (hidden_row_count s, length (hidden_rows s)))
      (hr_worksheets (hidden_of JNull [ws_rows51])) = [(51, 50)].
Proof. vm_compute. reflexivity. Qed.

(** C3 (amended): [comment_count] and [question_count] are the lengths of
    their lists; a hidden-content entry lists [min(count, 50)] rows and
    [min(count, 50)] columns. *)
Theorem counts_match_lists (filename : json) (wb : Workbook) :
  Forall (fun s => comment_count s = length (comments s))
    (cr_worksheets (comments_of filename wb)) /\
  Forall (fun s => question_count s = length (questions s))
    (qr_worksheets (questions_of filename wb)) /\
  Forall (fun s => length (hidden_rows s) = Nat.min (hidden_row_count s) 50 /\
                   length (hidden_columns s) = Nat.min (hidden_column_count s) 50)
    (hr_worksheets (hidden_of filename wb)).
Proof.
  rewrite comments_of_eq, questions_of_eq, hidden_of_eq.
  cbn [cr_worksheets qr_worksheets hr_worksheets]. repeat split.
  - apply (in_flat_map_sheet sheet_comments
             (fun ws n l => mkCommentSheet (title ws) n l)
             (fun s => comment_count s = length (comments s))).
    reflexivity.
  - apply (in_flat_map_sheet sheet_questions
             (fun ws n l => mkQuestionSheet (title ws) n l)
             (fun s => question_count s = length (questions s))).
    reflexivity.
  - apply Forall_forall. intros s Hin. apply in_map_iff in Hin as [ws [<- _]].
    unfold hidden_sheet.
    cbn [hidden_rows hidden_columns hidden_row_count hidden_column_count].
    rewrite !length_firstn. split; lia.
Qed.

(** C4 (code defect): the answer is read from the cell to the right of the
    question through [str(answer_cell.value) if answer_cell and
    answer_cell.value else ""], a truthiness test: a right-hand cell holding
    0 or False gives the answer "" although it is not empty. On Sheet1 with
    A1 = "Is this done?" and B1 = 0 the loop of [extract_questions] reports
    the question A1 -> B1 with answer "". *)
Theorem question_zero_answer_blank :
  (forall ws r c v a,
     value (cell_at ws r (c + 1)) = Some a -> truthy (Some a) = false ->
     qe_answer_cell (question_entry ws (r, c) v) = Some (coordinate r (c + 1)) /\
     qe_answer (question_entry ws (r, c) v) = "") /\
  questions_r JNull [Work ws_answer_zero] =
    Ok (mkQuestionReport JNull 1
          [mkQuestionSheet "Sheet1" 1
             [mkQuestionEntry "A1" "Is this done?" (Some "B1") ""]]).
Proof.
  split.
  - intros ws r c v a Ha Ht. unfold question_entry. cbn [qe_answer qe_answer_cell].
    rewrite Ha, Ht. split; reflexivity.
  - vm_compute. reflexivity.
Qed.

(** C5 (code defect): a commented cell holding the number 0 is reported with
    value "" although the cell has a value ([str(cell.value) if cell.value
    else ""] tests truthiness, not [None]). *)
Theorem comment_zero_value_blank :
  comments_of JNull [ws_zero] =
  mkCommentReport JNull 1 [mkCommentSheet "Sheet1" 1 [mkCommentEntry "A1" "" "note" "Ann"]].
Proof. vm_compute. reflexivity. Qed.

(** C10: a sheet entry of the hidden-content report is marked hidden exactly
    when [sheet_state] is 'hidden'; a 'veryHidden' sheet is reported as not
    hidden. *)
Theorem sheet_hidden_flag (filename : json) (wb : Workbook) :
  Forall2 (fun ws s => hs_sheet s = title ws /\
                       (hidden s = true <-> sheet_state ws = "hidden") /\
                       (sheet_state ws = "veryHidden" -> hidden s = false))
    wb (hr_worksheets (hidden_of filename wb)) /\
  map hidden (hr_worksheets (hidden_of filename [ws_very_hidden])) = [false].
Proof.
  split.
  - rewrite hidden_of_eq. cbn [hr_worksheets].
    induction wb as [|ws wb IH]; constructor; auto.
    unfold hidden_sheet. cbn [hidden hs_sheet]. repeat split.
    + apply String.eqb_eq.
    + apply String.eqb_eq.
    + intros ->. reflexivity.
  - vm_compute. reflexivity.
Qed.

(** C1: [comprehensive_analysis] is the composition of the three passes run
    directly, and does nothing else: when it succeeds, its sub-reports are
    what the three passes return, its summary totals are their totals and
    [worksheet_count] is the number of hidden-content sheet entries;
    whenever the three passes succeed, it succeeds with exactly that
    report; when it fails, it fails with the error of one of the passes. *)
Theorem comprehensive_is_composition (filename : json) (fb : option (list Byte.byte)) :
  (forall r, comprehensive_analysis filename fb = Ok r ->
     extract_comments filename fb = Ok (cp_comments r) /\
     extract_questions filename fb = Ok (cp_questions r) /\
     detect_hidden_content filename fb = Ok (cp_hidden r) /\
     cp_filename r = filename /\
     summary r = mkSummary (total_comments (cp_comments r))
                   (total_questions (cp_questions r))
                   (total_hidden_rows (cp_hidden r))
                   (total_hidden_columns (cp_hidden r))
                   (length (hr_worksheets (cp_hidden r)))) /\
  (forall c q h,
     extract_comments filename fb = Ok c ->
     extract_questions filename fb = Ok q ->
     detect_hidden_content filename fb = Ok h ->
     comprehensive_analysis filename fb =
       Ok (mkCompReport filename
             (mkSummary (total_comments c) (total_questions q)
                (total_hidden_rows h) (total_hidden_columns h)
                (length (hr_worksheets h)))
             c q h)) /\
  (forall e, comprehensive_analysis filename fb = Err e ->
     extract_comments filename fb = Err e \/
     extract_questions filename fb = Err e \/
     detect_hidden_content filename fb = Err e).
Proof.
  unfold comprehensive_analysis. split; [|split].
  - intros r H.
    destruct (extract_comments filename fb) as [c|e]; cbn in H; [|discriminate].
    destruct (extract_questions filename fb) as [q|e]; cbn in H; [|discriminate].
    destruct (detect_hidden_content filename fb) as [h|e]; cbn in H; [|discriminate].
    injection H as <-. cbn. repeat split.
  - intros c q h Hc Hq Hh. rewrite Hc, Hq, Hh. reflexivity.
  - intros e H.
    destruct (extract_comments filename fb) as [c|e1]; cbn in H; [|left; congruence].
    destruct (extract_questions filename fb) as [q|e2]; cbn in H; [|right; left; congruence].
    destruct (detect_hidden_content filename fb) as [h|e3]; cbn in H; [discriminate|].
    right; right; congruence.
Qed.

Lemma dispatch_ok_id (request : list (string * json)) (method params req_id r : json) :
  dispatch request method params req_id = Ok r ->
  exists res, r = ok_response req_id res.
Proof.
  unfold dispatch.
  destruct (is_str method "initialize"); [intros [= <-]; eauto|].
  destruct (is_str method "tools/list"); [intros [= <-]; eauto|].
  destruct (is_str method "tools/call"); [|discriminate].
  destruct (py_get params "name" JNull) as [n|]; [|discriminate]. cbn.
  destruct (py_get params "arguments" (JObj [])) as [a|]; [|discriminate]. cbn.
  destruct (py_get a "filename" JNull) as [f|]; [|discriminate]. cbn.
  destruct (match lookup request "fileContent" with
            | Some fc => match b64decode fc with
                         | inl b => Ok (Some b) | inr msg => Err (DecodeError msg) end
            | None => Ok None end)
    as [fb|]; [|discriminate]. cbn.
  destruct (run_tool n f fb); [|discriminate]. cbn. intros [= <-]. eauto.
Qed.

(** C6: [main] answers a non-blank line with one response; the response
    carries the request's [id] ([0] when it is absent or the line is not a
    JSON object); a line [json.loads] rejects gets code -32700 and id 0;
    every exception raised while dispatching (load failures, unknown tools,
    unknown methods, ...) gets code -32603 with [str(e)] as [data]. *)
Theorem response_id_and_error_codes (line : pystr) :
  main_step line =
    (if is_blank line then [ReadLine line]
     else [ReadLine line; WriteOut (json_dumps None (line_response line))]) /\
  resp_id (line_response line) =
    Some (match json_loads line with
          | inl (JObj kvs) => dict_get kvs "id" (JInt 0)
          | _ => JInt 0
          end) /\
  (forall msg, json_loads line = inr msg ->
     line_response line = error_response (JInt 0) (-32700) "Parse error" msg) /\
  (forall kvs e, json_loads line = inl (JObj kvs) ->
     dispatch kvs (dict_get kvs "method" JNull) (dict_get kvs "params" (JObj []))
       (dict_get kvs "id" (JInt 0)) = Err e ->
     line_response line =
       error_response (dict_get kvs "id" (JInt 0)) (-32603) "Internal error" (str_exn e)) /\
  (forall kvs, json_loads line = inl (JObj kvs) ->
     let method := dict_get kvs "method" JNull in
     is_str method "initialize" = false -> is_str method "tools/list" = false ->
     is_str method "tools/call" = false ->
     resp_error_code (line_response line) = Some (-32603)%Z /\
     resp_error_data (line_response line) = Some (JStr ("Unknown method: " ^^ py_str_json method))).
Proof.
  split; [|split; [|split; [|split]]].
  - unfold main_step. destruct (is_blank line); reflexivity.
  - unfold line_response. destruct (json_loads line) as [j|e]; cbn; [|reflexivity].
    destruct j as [| | | | |kvs]; cbn; try reflexivity.
    destruct (dispatch kvs _ _ _) as [r|e] eqn:E; [|reflexivity].
    apply dispatch_ok_id in E as [res ->]. reflexivity.
  - intros e He. unfold line_response. now rewrite He.
  - intros kvs e Hj Hd. unfold line_response. rewrite Hj. cbn. now rewrite Hd.
  - intros kvs Hj method H1 H2 H3. unfold line_response. rewrite Hj. cbn.
    unfold dispatch. fold method. rewrite H1, H2, H3. split; reflexivity.
Qed.

(** The passes never fail with a [ValueError] other than
    [get_column_letter]'s. *)
Lemma pass_errors (filename : json) (fb : option (list Byte.byte)) (e : exn) :
  (extract_comments filename fb = Err e \/ extract_questions filename fb = Err e \/
   detect_hidden_content filename fb = Err e \/ comprehensive_analysis filename fb = Err e) ->
  scan_exn e.
Proof.
  unfold comprehensive_analysis, extract_comments, extract_questions, detect_hidden_content,
    load_workbook_from_buffer.
  destruct fb as [b|]; [|cbn; intros [H|[H|[H|H]]]; injection H as <-; exact I].
  destruct (parse_xlsx b) as [wb|msg]; cbn;
    [|intros [H|[H|[H|H]]]; injection H as <-; exact I].
  intros H. apply (scans_err filename wb).
  destruct H as [H|[H|[H|H]]]; auto.
  destruct (comments_r filename wb) eqn:E1; cbn in H; [|left; congruence].
  destruct (questions_r filename wb) eqn:E2; cbn in H; [|right; left; congruence].
  destruct (hidden_r filename wb) eqn:E3; cbn in H; [discriminate|right; right; congruence].
Qed.

Lemma unknown_tool_not_scan_exn (x : json) : ~ scan_exn (unknown_tool x).
Proof. cbn. intros [k Hk]. discriminate Hk. Qed.

Lemma not_catalog_name (name : json) :
  (forall d, In d TOOLS -> descriptor_name d <> Some name) ->
  forall s, In s ["extract_comments"; "extract_questions";
                  "detect_hidden_content"; "comprehensive_analysis"] ->
  is_str name s = false.
Proof.
  intros Hnot s Hs. destruct name; try reflexivity. cbn.
  apply String.eqb_neq. intros <-.
  destruct Hs as [<-|[<-|[<-|[<-|[]]]]];
    [ apply (Hnot (nth 0 TOOLS JNull)) | apply (Hnot (nth 1 TOOLS JNull))
    | apply (Hnot (nth 2 TOOLS JNull)) | apply (Hnot (nth 3 TOOLS JNull)) ];
    cbn; auto 6.
Qed.

(** C7: [tools/list] answers the static catalog of four descriptors; a
    [tools/call] naming one of them with arguments [{filename}] runs the
    matching pass and never fails with the unknown-tool error, whatever
    [fileContent] holds; a [tools/call] with [{filename}] arguments naming
    anything else fails with the unknown-tool error (when [fileContent] is
    absent or decodes). *)
Theorem tools_catalog_round_trip :
  length TOOLS = 4 /\
  map descriptor_name TOOLS =
    map (fun n => Some (JStr n))
      ["extract_comments"; "extract_questions"; "detect_hidden_content";
       "comprehensive_analysis"] /\
  (forall kvs, dict_get kvs "method" JNull = JStr "tools/list" ->
     handle_request (JObj kvs) =
       Ok (ok_response (dict_get kvs "id" (JInt 0)) (JObj [("tools", JArr TOOLS)]))) /\
  (forall f fb,
     run_tool (JStr "extract_comments") f fb = rmap RComments (extract_comments f fb) /\
     run_tool (JStr "extract_questions") f fb = rmap RQuestions (extract_questions f fb) /\
     run_tool (JStr "detect_hidden_content") f fb =
       rmap RHidden (detect_hidden_content f fb) /\
     run_tool (JStr "comprehensive_analysis") f fb =
       rmap RComp (comprehensive_analysis f fb)) /\
  (forall d n kvs f req_id e,
     In d TOOLS -> descriptor_name d = Some (JStr n) ->
     dispatch kvs (JStr "tools/call")
       (JObj [("name", JStr n); ("arguments", JObj [("filename", f)])]) req_id = Err e ->
     forall x, e <> unknown_tool x) /\
  (forall name kvs f req_id,
     (forall d, In d TOOLS -> descriptor_name d <> Some name) ->
     (forall fc, lookup kvs "fileContent" = Some fc -> exists b, b64decode fc = inl b) ->
     dispatch kvs (JStr "tools/call")
       (JObj [("name", name); ("arguments", JObj [("filename", f)])]) req_id =
       Err (unknown_tool name)).
Proof.
  split; [reflexivity|]. split; [reflexivity|]. split; [|split; [|split]].
  - intros kvs Hm. unfold handle_request, dispatch. rewrite Hm. reflexivity.
  - intros f fb. repeat split.
  - intros d n kvs f req_id e Hin Hname Hd x.
    unfold dispatch in Hd. cbn in Hd.
    destruct (match lookup kvs "fileContent" with
              | Some fc => match b64decode fc with
                           | inl b => Ok (Some b) | inr msg => Err (DecodeError msg) end
              | None => Ok None end) as [fb|e'] eqn:Efb; cbn in Hd.
    2: { unfold bind in Hd. inversion Hd; subst e'.
         destruct (lookup kvs "fileContent") as [fc|]; [|discriminate].
         destruct (b64decode fc); [discriminate|].
         inversion Efb. discriminate. }
    destruct (run_tool (JStr n) f fb) as [r|e'] eqn:Er; cbn in Hd; [discriminate|].
    injection Hd as <-.
    assert (Hpass : scan_exn e').
    { apply (pass_errors f fb).
      simpl in Hin.
      destruct Hin as [<-|[<-|[<-|[<-|[]]]]]; injection Hname as <-;
        unfold run_tool in Er; cbn in Er;
        [ destruct (extract_comments f fb) eqn:E; cbn in Er; [discriminate|]
        | destruct (extract_questions f fb) eqn:E; cbn in Er; [discriminate|]
        | destruct (detect_hidden_content f fb) eqn:E; cbn in Er; [discriminate|]
        | destruct (comprehensive_analysis f fb) eqn:E; cbn in Er; [discriminate|] ];
        injection Er as ->; auto. }
    intros ->. exact (unknown_tool_not_scan_exn x Hpass).
  - intros name kvs f req_id Hnot Hfc. unfold dispatch. cbn.
    destruct (lookup kvs "fileContent") as [fc|] eqn:Ef.
    + destruct (Hfc fc eq_refl) as [b ->]. cbn.
      unfold run_tool.
      pose proof (not_catalog_name name Hnot) as Hn.
      rewrite !Hn by (cbn; auto 6). reflexivity.
    + cbn. unfold run_tool.
      pose proof (not_catalog_name name Hnot) as Hn.
      rewrite !Hn by (cbn; auto 6). reflexivity.
Qed.

(** C8 (amended): over any input stream, each non-blank line is answered by
    exactly one stdout line before the next line is read, blank lines get no
    answer, the stdout lines are the responses to the non-blank lines in
    order, and the start-up banner goes to stderr. *)
Theorem main_one_response_per_nonblank_line (stdin : list pystr) :
  paced (serve stdin) = true /\
  stdout_lines (serve stdin) =
    map (fun l => json_dumps None (line_response l))
      (filter (fun l => negb (is_blank l)) stdin) /\
  main stdin = WriteErr "Python Excel Analysis MCP Server starting..." :: serve stdin.
Proof.
  split; [|split; [|reflexivity]].
  - induction stdin as [|l ls IH]; [reflexivity|].
    cbn [serve]. unfold main_step.
    destruct (is_blank l) eqn:Hb; cbn; rewrite Hb; exact IH.
  - unfold stdout_lines. induction stdin as [|l ls IH]; [reflexivity|].
    cbn [serve]. unfold main_step. rewrite flat_map_app.
    destruct (is_blank l) eqn:Hb; cbn; rewrite IH, Hb; reflexivity.
Qed.

Lemma passes_ignore_filename (n f f' : json) (fb : option (list Byte.byte)) :
  run_tool n f fb = rmap (set_filename f) (run_tool n f' fb).
Proof.
  unfold run_tool, comprehensive_analysis, extract_comments, extract_questions,
    detect_hidden_content.
  destruct (load_workbook_from_buffer fb) as [wb|e];
    [|repeat (destruct (is_str n _)); reflexivity].
  cbn [bind].
  rewrite (comments_r_filename f f' wb), (questions_r_filename f f' wb),
    (hidden_r_filename f f' wb).
  destruct (comments_r f' wb) as [c|e1]; destruct (questions_r f' wb) as [q|e2];
    destruct (hidden_r f' wb) as [h|e3];
    repeat (destruct (is_str n _)); reflexivity.
Qed.

(** C9: a [tools/call] without a top-level [fileContent] always fails with
    code -32603; when it names a catalog tool with object arguments, the
    pass gets [None] as its buffer and the load fails on it. The filename
    argument is never read from: running a tool with another filename
    changes only the reports' [filename] fields. *)
Theorem tools_call_without_file_content
    (kvs : list (string * json))
    (Hm : dict_get kvs "method" JNull = JStr "tools/call")
    (Hfc : lookup kvs "fileContent" = None) :
  (exists msg, handle_request (JObj kvs) =
     Ok (error_response (dict_get kvs "id" (JInt 0)) (-32603) "Internal error" msg)) /\
  (forall p n a,
     dict_get kvs "params" (JObj []) = JObj p ->
     dict_get p "name" JNull = JStr n ->
     In n ["extract_comments"; "extract_questions"; "detect_hidden_content";
           "comprehensive_analysis"] ->
     dict_get p "arguments" (JObj []) = JObj a ->
     load_workbook_from_buffer None =
       Err (TypeError "a bytes-like object is required, not 'NoneType'") /\
     handle_request (JObj kvs) =
       Ok (error_response (dict_get kvs "id" (JInt 0)) (-32603) "Internal error"
             "a bytes-like object is required, not 'NoneType'")) /\
  (forall n f f' fb, run_tool n f fb = rmap (set_filename f) (run_tool n f' fb)).
Proof.
  split; [|split; [|exact passes_ignore_filename]].
  - unfold handle_request, dispatch. rewrite Hm. cbn.
    destruct (py_get _ "name" JNull) as [n|e]; cbn; [|eauto].
    destruct (py_get _ "arguments" (JObj [])) as [a|e]; cbn; [|eauto].
    destruct (py_get a "filename" JNull) as [f|e]; cbn; [|eauto].
    rewrite Hfc. cbn.
    destruct (run_tool n f None) as [r|e] eqn:Er; cbn; [|eauto].
    exfalso. unfold run_tool in Er.
    repeat (destruct (is_str n _)); discriminate.
  - intros p n a Hp Hn Hin Ha. split; [reflexivity|].
    unfold handle_request, dispatch. rewrite Hm. cbn. rewrite Hp. cbn.
    rewrite Hn, Ha. cbn. rewrite Hfc. cbn.
    destruct Hin as [<-|[<-|[<-|[<-|[]]]]]; reflexivity.
Qed.

(* ------------------------------------------------------------------------- *)
(** * Further properties of the passes *)

Lemma length_sheet_comments (ws : Worksheet) :
  length (sheet_comments ws) = length (filter (has_comment ws) (cells ws)).
Proof.
  rewrite sheet_comments_eq. unfold has_comment.
  induction (cells ws) as [|rc l IH]; [reflexivity|].
  cbn [flat_map filter]. destruct (comment _); cbn; now rewrite ?IH.
Qed.

Lemma length_sheet_questions (ws : Worksheet) :
  length (sheet_questions ws) = length (filter (has_question ws) (cells ws)).
Proof.
  rewrite sheet_questions_eq. unfold has_question.
  induction (cells ws) as [|rc l IH]; [reflexivity|].
  cbn [flat_map filter]. cbv zeta. rewrite is_question_contains.
  destruct (value _) as [v|]; cbn; [destruct (Py.contains _ _)|]; cbn; now rewrite ?IH.
Qed.

(** The sheet entries kept by [if sheet_comments:] (or [if sheet_questions:]). *)
Lemma kept_sheets {A S} (f : Worksheet -> list A) (mk : Worksheet -> nat -> list A -> S)
  (cnt : S -> nat) (name : S -> string) (wb : Workbook) :
  (forall ws n l, cnt (mk ws n l) = n) -> (forall ws n l, name (mk ws n l) = title ws) ->
  let sheets := flat_map (fun ws => match f ws with [] => [] | l => [mk ws (length l) l] end) wb in
  list_sum (map cnt sheets) = list_sum (map (fun ws => length (f ws)) wb) /\
  Forall (fun s => 0 < cnt s) sheets /\
  map name sheets = map title (filter (fun ws => nonempty (f ws)) wb).
Proof.
  intros Hc Hn. cbv zeta. unfold list_sum.
  induction wb as [|ws wb [IH1 [IH2 IH3]]]; cbn in *; [auto|].
  destruct (f ws) as [|x l]; cbn in *; [auto|].
  rewrite Hc, Hn, IH1, IH3. repeat split; auto.
  constructor; auto. rewrite Hc. lia.
Qed.

(** [extract_comments]: the total is the sum of the per-sheet counts; only
    sheets with at least one comment are listed, in workbook order; the
    total is the number of commented cells inside the sheets' bounding
    boxes. *)
Theorem comments_report_totals (filename : json) (wb : Workbook) :
  let r := comments_of filename wb in
  cr_filename r = filename /\
  total_comments r = list_sum (map comment_count (cr_worksheets r)) /\
  Forall (fun s => 0 < comment_count s) (cr_worksheets r) /\
  map cs_sheet (cr_worksheets r) =
    map title (filter (fun ws => nonempty (sheet_comments ws)) wb) /\
  total_comments r = list_sum (map (fun ws => length (filter (has_comment ws) (cells ws))) wb).
Proof.
  cbv zeta. rewrite comments_of_eq. cbn [cr_filename total_comments cr_worksheets].
  destruct (kept_sheets sheet_comments (fun ws n l => mkCommentSheet (title ws) n l)
              comment_count cs_sheet wb (fun _ _ _ => eq_refl) (fun _ _ _ => eq_refl))
    as [H1 [H2 H3]].
  repeat split; auto.
  f_equal. apply map_ext. apply length_sheet_comments.
Qed.

(** [extract_questions]: the total is the sum of the per-sheet counts; only
    sheets with at least one question are listed, in workbook order; the
    total is the number of cells inside the bounding boxes whose [str]
    contains '?'. *)
Theorem questions_report_totals (filename : json) (wb : Workbook) :
  let r := questions_of filename wb in
  qr_filename r = filename /\
  total_questions r = list_sum (map question_count (qr_worksheets r)) /\
  Forall (fun s => 0 < question_count s) (qr_worksheets r) /\
  map qs_sheet (qr_worksheets r) =
    map title (filter (fun ws => nonempty (sheet_questions ws)) wb) /\
  total_questions r =
    list_sum (map (fun ws => length (filter (has_question ws) (cells ws))) wb).
Proof.
  cbv zeta. rewrite questions_of_eq. cbn [qr_filename total_questions qr_worksheets].
  destruct (kept_sheets sheet_questions (fun ws n l => mkQuestionSheet (title ws) n l)
              question_count qs_sheet wb (fun _ _ _ => eq_refl) (fun _ _ _ => eq_refl))
    as [H1 [H2 H3]].
  repeat split; auto.
  f_equal. apply map_ext. apply length_sheet_questions.
Qed.

(** [detect_hidden_content]: every worksheet is listed, in workbook order,
    with its bounding box as [row_count]/[column_count]; the totals are the
    sums of the per-sheet counts. *)
Theorem hidden_report_lists_every_sheet (filename : json) (wb : Workbook) :
  let r := hidden_of filename wb in
  hr_filename r = filename /\
  map hs_sheet (hr_worksheets r) = map title wb /\
  Forall2 (fun ws s => row_count s = max_row ws /\ column_count s = max_column ws)
    wb (hr_worksheets r) /\
  total_hidden_rows r = list_sum (map hidden_row_count (hr_worksheets r)) /\
  total_hidden_columns r = list_sum (map hidden_column_count (hr_worksheets r)).
Proof.
  cbv zeta. rewrite hidden_of_eq.
  cbn [hr_filename hr_worksheets total_hidden_rows total_hidden_columns].
  rewrite !map_map. repeat split; try reflexivity.
  induction wb as [|ws wb IH]; constructor; auto; split; reflexivity.
Qed.

Lemma StronglySorted_seq (a n : nat) : StronglySorted lt (seq a n).
Proof.
  revert a. induction n as [|n IH]; intros a; cbn; constructor; auto.
  apply Forall_forall. intros x Hx. apply in_seq in Hx. lia.
Qed.

Lemma StronglySorted_filter {A} (R : A -> A -> Prop) (p : A -> bool) (l : list A) :
  StronglySorted R l -> StronglySorted R (filter p l).
Proof.
  induction 1 as [|x l Hs IH Hf]; cbn; [constructor|].
  destruct (p x); auto. constructor; auto.
  apply Forall_forall. intros y Hy. apply filter_In in Hy as [Hy _].
  now apply (proj1 (Forall_forall _ _) Hf).
Qed.

Lemma in_firstn_in {A} (k : nat) (l : list A) (x : A) : In x (firstn k l) -> In x l.
Proof. intros H. rewrite <- (firstn_skipn k l). apply in_or_app. now left. Qed.

Lemma StronglySorted_firstn {A} (R : A -> A -> Prop) (k : nat) (l : list A) :
  StronglySorted R l -> StronglySorted R (firstn k l).
Proof.
  revert l. induction k as [|k IH]; intros l Hs; [constructor|].
  destruct Hs as [|x l Hs Hf]; cbn; constructor; auto.
  apply Forall_forall. intros y Hy. apply (proj1 (Forall_forall _ _) Hf).
  eapply in_firstn_in; eauto.
Qed.

(** The hidden rows a sheet entry lists are strictly ascending row numbers
    within 1..row_count; the hidden columns are letters of columns within
    1..column_count. *)
Theorem hidden_entries_in_bounds (filename : json) (wb : Workbook) :
  Forall (fun s =>
    StronglySorted lt (hidden_rows s) /\
    Forall (fun r => 1 <= r <= row_count s) (hidden_rows s) /\
    Forall (fun c => exists n, 1 <= n <= column_count s /\ c = column_letter n)
      (hidden_columns s))
    (hr_worksheets (hidden_of filename wb)).
Proof.
  rewrite hidden_of_eq. cbn [hr_worksheets].
  apply Forall_forall. intros s Hs. apply in_map_iff in Hs as [ws [<- _]].
  unfold hidden_sheet. cbn [hidden_rows hidden_columns row_count column_count].
  rewrite hidden_rows_of_eq, hidden_columns_of_eq. repeat split.
  - apply StronglySorted_firstn, StronglySorted_filter, StronglySorted_seq.
  - apply Forall_forall. intros r Hr. apply in_firstn_in, filter_In in Hr as [Hr _].
    apply in_seq in Hr. lia.
  - apply Forall_forall. intros c Hc. apply in_firstn_in, filter_In in Hc as [Hc _].
    apply in_map_iff in Hc as [n [<- Hn]]. apply in_seq in Hn. exists n. split; [lia|auto].
Qed.

(** Every comment entry comes from a commented cell inside the bounding box:
    it names the cell, carries the comment's text, and the comment's author
    or "Unknown" when the comment has no author attribute. *)
Theorem comment_entries_from_commented_cells (ws : Worksheet) (e : CommentEntry) :
  In e (sheet_comments ws) ->
  exists r c cm,
    In (r, c) (cells ws) /\ comment (cell_at ws r c) = Some cm /\
    ce_cell e = coordinate r c /\ ce_comment e = ctext cm /\
    ce_author e = match cauthor cm with Some a => a | None => "Unknown" end.
Proof.
  rewrite sheet_comments_eq. intros Hin.
  apply in_flat_map in Hin as [[r c] [Hrc Hin]]. cbn [fst snd] in Hin.
  destruct (comment (cell_at ws r c)) as [cm|] eqn:E; [|contradiction].
  destruct Hin as [<-|[]]. exists r, c, cm. repeat split; auto.
Qed.

(** Every question entry's text contains '?'. *)
Theorem question_texts_contain_mark (filename : json) (wb : Workbook) :
  Forall (fun s => Forall (fun q => Py.contains "?" (qe_question q) = true) (questions s))
    (qr_worksheets (questions_of filename wb)).
Proof.
  rewrite questions_of_eq. cbn [qr_worksheets].
  apply Forall_forall. intros s Hs. apply in_flat_map in Hs as [ws [_ Hs]].
  destruct (sheet_questions ws) as [|x l] eqn:E; [contradiction|].
  destruct Hs as [<-|[]]. cbn [questions]. rewrite <- E, sheet_questions_eq.
  apply Forall_forall. intros q Hq. apply in_flat_map in Hq as [[r c] [_ Hq]].
  cbv zeta in Hq. rewrite is_question_contains in Hq.
  destruct (value _) as [v|]; [|contradiction].
  destruct (Py.contains "?" (py_str v)) eqn:Hc; [|contradiction].
  destruct Hq as [<-|[]]. exact Hc.
Qed.

(* ------------------------------------------------------------------------- *)
(** * Further properties of the request handling *)

(** [initialize] needs no validation: whatever else the request holds, it
    answers the fixed protocol metadata with the request's id. *)
Theorem initialize_always_succeeds (kvs : list (string * json))
    (Hm : dict_get kvs "method" JNull = JStr "initialize") :
  handle_request (JObj kvs) =
    Ok (ok_response (dict_get kvs "id" (JInt 0)) initialize_result).
Proof. unfold handle_request, dispatch. now rewrite Hm. Qed.

(** A line that is valid JSON but not an object fails in the [request.get]
    calls before the [try] of [handle_request]: [main] answers it as a parse
    error with id 0. *)
Theorem non_object_request_is_parse_error (line : pystr) (j : json)
    (Hl : json_loads line = inl j) (Hj : forall kvs, j <> JObj kvs) :
  line_response line =
    error_response (JInt 0) (-32700) "Parse error"
      ("'" ^^ py_type_name j ^^ "' object has no attribute 'get'").
Proof.
  unfold line_response, handle_request. rewrite Hl.
  destruct j; try reflexivity. exfalso. eapply Hj; reflexivity.
Qed.

(** In a [tools/call], [params] that is not an object, or an [arguments]
    entry that is present but not an object (e.g. null, which the [{}]
    default does not replace), fails with -32603 and an AttributeError
    naming its type. *)
Theorem tools_call_malformed_params (kvs : list (string * json))
    (Hm : dict_get kvs "method" JNull = JStr "tools/call") :
  let req_id := dict_get kvs "id" (JInt 0) in
  (forall j, dict_get kvs "params" (JObj []) = j -> (forall p, j <> JObj p) ->
     handle_request (JObj kvs) =
       Ok (error_response req_id (-32603) "Internal error"
             ("'" ^^ py_type_name j ^^ "' object has no attribute 'get'"))) /\
  (forall p j, dict_get kvs "params" (JObj []) = JObj p ->
     dict_get p "arguments" (JObj []) = j -> (forall a, j <> JObj a) ->
     handle_request (JObj kvs) =
       Ok (error_response req_id (-32603) "Internal error"
             ("'" ^^ py_type_name j ^^ "' object has no attribute 'get'"))).
Proof.
  intros req_id. split.
  - intros j Hp Hj. unfold handle_request, dispatch. rewrite Hm, Hp. cbn.
    destruct j; try reflexivity. exfalso. eapply Hj; reflexivity.
  - intros p j Hp Ha Hj. unfold handle_request, dispatch. rewrite Hm, Hp. cbn.
    rewrite Ha. destruct j; try reflexivity. exfalso. eapply Hj; reflexivity.
Qed.

(** [fileContent] is decoded before the tool name is looked at: a payload
    the decoder rejects fails the call with -32603 and the decoder's
    message, whatever the tool name. *)
Theorem decode_error_precedes_tool_lookup (kvs p a : list (string * json))
    (fc : json) (msg : string)
    (Hm : dict_get kvs "method" JNull = JStr "tools/call")
    (Hp : dict_get kvs "params" (JObj []) = JObj p)
    (Ha : dict_get p "arguments" (JObj []) = JObj a)
    (Hfc : lookup kvs "fileContent" = Some fc)
    (Hd : b64decode fc = inr msg) :
  handle_request (JObj kvs) =
    Ok (error_response (dict_get kvs "id" (JInt 0)) (-32603) "Internal error" msg).
Proof.
  unfold handle_request, dispatch. rewrite Hm, Hp. cbn. rewrite Ha. cbn.
  rewrite Hfc, Hd. reflexivity.
Qed.

Lemma tools_call_decoded (kvs p a : list (string * json)) (n : string) (fc : json)
    (b : list Byte.byte)
    (Hm : dict_get kvs "method" JNull = JStr "tools/call")
    (Hp : dict_get kvs "params" (JObj []) = JObj p)
    (Hn : dict_get p "name" JNull = JStr n)
    (Ha : dict_get p "arguments" (JObj []) = JObj a)
    (Hfc : lookup kvs "fileContent" = Some fc)
    (Hd : b64decode fc = inl b) :
  handle_request (JObj kvs) =
    match run_tool (JStr n) (dict_get a "filename" JNull) (Some b) with
    | Ok res => Ok (ok_response (dict_get kvs "id" (JInt 0))
                      (JObj [("content", JStr (json_dumps (Some 2) (report_json res)))]))
    | Err e => Ok (error_response (dict_get kvs "id" (JInt 0)) (-32603)
                     "Internal error" (str_exn e))
    end.
Proof.
  unfold handle_request, dispatch. rewrite Hm, Hp. cbn. rewrite Hn, Ha. cbn.
  rewrite Hfc, Hd. cbn. destruct (run_tool _ _ _); reflexivity.
Qed.



(** A catalog tool whose payload decodes but does not load fails with
    -32603 and the loader's message. *)
Theorem tools_call_load_failure (kvs p a : list (string * json)) (n : string) (fc : json)
    (b : list Byte.byte) (msg : string)
    (Hm : dict_get kvs "method" JNull = JStr "tools/call")
    (Hp : dict_get kvs "params" (JObj []) = JObj p)
    (Hn : dict_get p "name" JNull = JStr n)
    (Hin : In n ["extract_comments"; "extract_questions"; "detect_hidden_content";
                 "comprehensive_analysis"])
    (Ha : dict_get p "arguments" (JObj []) = JObj a)
    (Hfc : lookup kvs "fileContent" = Some fc)
    (Hd : b64decode fc = inl b)
    (Hb : parse_xlsx b = inr msg) :
  handle_request (JObj kvs) =
    Ok (error_response (dict_get kvs "id" (JInt 0)) (-32603) "Internal error" msg).
Proof.
  rewrite (tools_call_decoded kvs p a n fc b Hm Hp Hn Ha Hfc Hd).
  unfold run_tool, comprehensive_analysis, extract_comments, extract_questions,
    detect_hidden_content, load_workbook_from_buffer.
  rewrite Hb.
  destruct Hin as [<-|[<-|[<-|[<-|[]]]]]; reflexivity.
Qed.

(** Missing keys: a request without [method] fails with
    "Unknown method: None"; a [tools/call] whose [params] has no [name]
    (and no [fileContent] to decode) fails with "Unknown tool: None". *)
Theorem missing_method_or_tool_name (kvs : list (string * json))
    (Hfc : lookup kvs "fileContent" = None) :
  let req_id := dict_get kvs "id" (JInt 0) in
  (lookup kvs "method" = None ->
     handle_request (JObj kvs) =
       Ok (error_response req_id (-32603) "Internal error" "Unknown method: None")) /\
  (forall p a, dict_get kvs "method" JNull = JStr "tools/call" ->
     dict_get kvs "params" (JObj []) = JObj p -> lookup p "name" = None ->
     dict_get p "arguments" (JObj []) = JObj a ->
     handle_request (JObj kvs) =
       Ok (error_response req_id (-32603) "Internal error" "Unknown tool: None")).
Proof.
  intros req_id. split.
  - intros Hm.
    assert (H : dict_get kvs "method" JNull = JNull) by (unfold dict_get; now rewrite Hm).
    unfold handle_request, dispatch. now rewrite H.
  - intros p a Hm Hp Hn Ha.
    assert (H : dict_get p "name" JNull = JNull) by (unfold dict_get; now rewrite Hn).
    unfold handle_request, dispatch. rewrite Hm, Hp. cbn.
    rewrite H, Ha. cbn. rewrite Hfc. reflexivity.
Qed.

(** Every line [main] answers gets a JSON-RPC 2.0 object carrying exactly
    one of [result] and [error]. *)
Theorem every_response_well_formed (line : pystr) :
  resp_field (line_response line) "jsonrpc" = Some (JStr "2.0") /\
  (resp_field (line_response line) "result" = None <->
   resp_field (line_response line) "error" <> None).
Proof.
  assert (Herr : forall i c m d,
            resp_field (error_response i c m d) "jsonrpc" = Some (JStr "2.0") /\
            (resp_field (error_response i c m d) "result" = None <->
             resp_field (error_response i c m d) "error" <> None)).
  { intros. cbn. split; [reflexivity|]. split; [discriminate|auto]. }
  unfold line_response. destruct (json_loads line) as [j|msg]; [|apply Herr].
  unfold handle_request. destruct j as [| | | | |kvs]; try apply Herr.
  destruct (dispatch _ _ _ _) as [r|e] eqn:E; [|apply Herr].
  apply dispatch_ok_id in E as [res ->]. cbn.
  split; [reflexivity|]. split; [discriminate|]. intros H; exfalso; apply H; reflexivity.
Qed.

(** When [comprehensive_analysis] succeeds, the loaded workbook holds only
    worksheets and [worksheet_count] is their number; on a workbook without
    sheets all its totals are 0 and no sub-report lists a sheet. *)
Theorem comprehensive_counts_every_sheet (filename : json) (fb : option (list Byte.byte))
    (wb : Book) (Hl : load_workbook_from_buffer fb = Ok wb) :
  (forall r, comprehensive_analysis filename fb = Ok r ->
     worksheet_count (summary r) = length wb /\
     Forall (fun s => exists ws, s = Work ws) wb) /\
  (wb = [] -> exists r, comprehensive_analysis filename fb = Ok r /\
     summary r = mkSummary 0 0 0 0 0 /\ cr_worksheets (cp_comments r) = [] /\
     qr_worksheets (cp_questions r) = [] /\ hr_worksheets (cp_hidden r) = []).
Proof.
  unfold comprehensive_analysis, extract_comments, extract_questions,
    detect_hidden_content.
  rewrite Hl. cbn [bind]. split.
  - intros r H.
    destruct (comments_r filename wb) as [c|e]; cbn in H; [|discriminate].
    destruct (questions_r filename wb) as [q|e]; cbn in H; [|discriminate].
    destruct (hidden_r filename wb) as [h|e] eqn:Eh; cbn in H; [|discriminate].
    injection H as <-. cbn.
    destruct (hidden_r_worksheets filename wb h Eh) as [Hf Hlen]. auto.
  - intros ->. cbn. eexists. split; [reflexivity|]. repeat split.
Qed.

Lemma fold_m_ok_inv {A B} (f : B -> A -> result B) (g : B -> A -> B) (l : list A) :
  (forall acc x b', In x l -> f acc x = Ok b' -> b' = g acc x) ->
  forall b b', fold_m f l b = Ok b' -> b' = fold_left g l b.
Proof.
  induction l as [|x l IH]; intros H b b'; cbn; [congruence|].
  destruct (f b x) as [b''|e] eqn:E; cbn; [|discriminate].
  apply H in E; [|left; reflexivity]. subst b''.
  apply IH. intros acc y c Hy. apply H. now right.
Qed.

Lemma get_column_letter_inv (n : nat) (l : string) :
  get_column_letter n = Ok l -> l = column_letter n.
Proof. unfold get_column_letter. destruct (_ && _); congruence. Qed.

Lemma cell_coordinate_inv (r c : nat) (x : string) :
  cell_coordinate r c = Ok x -> x = coordinate r c.
Proof.
  unfold cell_coordinate. destruct (get_column_letter c) as [l|e] eqn:E; cbn; [|discriminate].
  apply get_column_letter_inv in E as ->. intros [= <-]. reflexivity.
Qed.

Lemma sheet_comments_r_inv (ws : Worksheet) (sc : list CommentEntry) :
  sheet_comments_r ws = Ok sc -> sc = sheet_comments ws.
Proof.
  unfold sheet_comments_r, sheet_comments. apply fold_m_ok_inv.
  intros acc row b' _. apply fold_m_ok_inv. intros acc' [r c] b'' _. cbn [fst snd].
  destruct (comment (cell_at ws r c)) as [cm|]; [|congruence].
  unfold comment_entry_r. destruct (cell_coordinate r c) as [x|e] eqn:E; cbn; [|discriminate].
  apply cell_coordinate_inv in E as ->. intros [= <-]. reflexivity.
Qed.

Lemma sheet_questions_r_inv (ws : Worksheet) (sq : list QuestionEntry) :
  sheet_questions_r ws = Ok sq -> sq = sheet_questions ws.
Proof.
  unfold sheet_questions_r, sheet_questions. apply fold_m_ok_inv.
  intros acc row b' _. apply fold_m_ok_inv. intros acc' [r c] b'' _. cbn [fst snd].
  destruct (is_question _); [|congruence].
  destruct (value (cell_at ws r c)) as [v|]; [|congruence].
  unfold question_entry_r.
  destruct (cell_coordinate r c) as [x|e] eqn:E; cbn; [|discriminate].
  destruct (cell_coordinate r (c + 1)) as [y|e] eqn:E'; cbn; [|discriminate].
  apply cell_coordinate_inv in E as ->. apply cell_coordinate_inv in E' as ->.
  intros [= <-]. reflexivity.
Qed.

Lemma hidden_columns_r_inv (ws : Worksheet) (hc : list string) :
  hidden_columns_r ws = Ok hc -> hc = hidden_columns_of ws.
Proof.
  unfold hidden_columns_r, hidden_columns_of. apply fold_m_ok_inv.
  intros acc n b' _. destruct (get_column_letter n) as [l|e] eqn:E; cbn; [|discriminate].
  apply get_column_letter_inv in E as ->. intros [= <-]. reflexivity.
Qed.

Lemma comments_r_inv (filename : json) (wb : Book) (r : CommentReport) :
  comments_r filename wb = Ok r -> exists wss, wb = map Work wss /\ r = comments_of filename wss.
Proof.
  unfold comments_r, comments_of. generalize (mkCommentReport filename 0 []) as res.
  revert r. induction wb as [|[ws|name] wb IH]; intros r res H; cbn in H.
  - injection H as <-. exists []. auto.
  - destruct (sheet_comments_r ws) as [sc|e] eqn:E; cbn in H; [|discriminate].
    apply sheet_comments_r_inv in E as ->.
    apply IH in H as [wss [-> ->]]. exists (ws :: wss). split; [reflexivity|].
    cbn [fold_left map]. reflexivity.
  - discriminate.
Qed.

Lemma questions_r_inv (filename : json) (wb : Book) (r : QuestionReport) :
  questions_r filename wb = Ok r -> exists wss, wb = map Work wss /\ r = questions_of filename wss.
Proof.
  unfold questions_r, questions_of. generalize (mkQuestionReport filename 0 []) as res.
  revert r. induction wb as [|[ws|name] wb IH]; intros r res H; cbn in H.
  - injection H as <-. exists []. auto.
  - destruct (sheet_questions_r ws) as [sq|e] eqn:E; cbn in H; [|discriminate].
    apply sheet_questions_r_inv in E as ->.
    apply IH in H as [wss [-> ->]]. exists (ws :: wss). split; [reflexivity|].
    cbn [fold_left map]. reflexivity.
  - discriminate.
Qed.

Lemma hidden_r_inv (filename : json) (wb : Book) (r : HiddenReport) :
  hidden_r filename wb = Ok r -> exists wss, wb = map Work wss /\ r = hidden_of filename wss.
Proof.
  unfold hidden_r, hidden_of. generalize (mkHiddenReport filename 0 0 []) as res.
  revert r. induction wb as [|[ws|name] wb IH]; intros r res H; cbn in H.
  - injection H as <-. exists []. auto.
  - destruct (hidden_columns_r ws) as [hc|e] eqn:E; cbn in H; [|discriminate].
    apply hidden_columns_r_inv in E as ->.
    apply IH in H as [wss [-> ->]]. exists (ws :: wss). split; reflexivity.
  - discriminate.
Qed.

(** Every report a pass returns is the scan of the loaded workbook: a pass
    that succeeds met only worksheets, and its report is the one the scans
    above build from them. *)
Theorem pass_reports_are_scans (filename : json) (fb : option (list Byte.byte)) :
  (forall r, extract_comments filename fb = Ok r ->
     exists wb, load_workbook_from_buffer fb = Ok (map Work wb) /\ r = comments_of filename wb) /\
  (forall r, extract_questions filename fb = Ok r ->
     exists wb, load_workbook_from_buffer fb = Ok (map Work wb) /\ r = questions_of filename wb) /\
  (forall r, detect_hidden_content filename fb = Ok r ->
     exists wb, load_workbook_from_buffer fb = Ok (map Work wb) /\ r = hidden_of filename wb).
Proof.
  unfold extract_comments, extract_questions, detect_hidden_content.
  destruct (load_workbook_from_buffer fb) as [book|e]; cbn [bind];
    [|split; [|split]; discriminate].
  split; [|split]; intros r H;
    [ apply comments_r_inv in H | apply questions_r_inv in H | apply hidden_r_inv in H ];
    destruct H as [wss [-> ->]]; eauto.
Qed.


(** A worksheet whose used range goes past column 18278 makes
    [detect_hidden_content] fail with [ValueError]: the column loop calls
    [get_column_letter(18279)]. *)
Theorem hidden_scan_column_overflow (filename : json) (fb : option (list Byte.byte))
    (wb : Workbook) (ws : Worksheet) (rest : Book)
    (Hl : load_workbook_from_buffer fb = Ok (map Work wb ++ Work ws :: rest))
    (Hr : columns_in_range wb = true)
    (Hc : 18278 < max_column ws) :
  detect_hidden_content filename fb = Err (ValueError "Invalid column index 18279").
Proof.
  assert (Hcol : hidden_columns_r ws =
                   Err (ValueError ("Invalid column index " ^^ Py.str_nat (1 + 18278)))).
  { unfold hidden_columns_r.
    replace (max_column ws) with (18278 + S (max_column ws - S 18278)) by lia.
    rewrite seq_app, fold_m_app.
    rewrite (fold_m_ok _ (fun acc col_num =>
               if col_hidden ws (column_letter col_num)
               then acc ++ [column_letter col_num] else acc)).
    2: { intros acc x Hx. apply in_seq in Hx. rewrite get_column_letter_ok by lia.
         reflexivity. }
    cbn [bind seq fold_m]. rewrite get_column_letter_out by lia. reflexivity. }
  unfold detect_hidden_content. rewrite Hl. cbn [bind].
  unfold hidden_r. rewrite fold_m_app.
  pose proof (hidden_r_ok filename wb Hr) as H. unfold hidden_r in H. rewrite H.
  cbn [bind fold_m hidden_sheet_r]. rewrite Hcol. vm_compute. reflexivity.
Qed.

End Server.

(* ------------------------------------------------------------------------- *)
(** * Instances on concrete requests and input streams *)

(** C8 (refuted as stated): a whitespace-only line is read and dropped with
    no response, so the next read follows it directly. *)
Lemma blank_line_read_without_response :
  firstn 2 (serve ex_parse ex_b64decode ex_loads ex_dumps [py_line " "; py_line "ping"])
    = [ReadLine (py_line " "); ReadLine (py_line "ping")] /\
  strictly_paced (serve ex_parse ex_b64decode ex_loads ex_dumps
                    [py_line " "; py_line "ping"]) = false.
Proof. split; vm_compute; reflexivity. Qed.

(** The C9 theorem on an [extract_comments] call that carries no
    [fileContent]. *)
Lemma tools_call_without_file_content_witness :
  let kvs := [("jsonrpc", JStr "2.0"); ("id", JInt 3); ("method", JStr "tools/call");
              ("params", JObj [("name", JStr "extract_comments");
                               ("arguments", JObj [("filename", JStr "book.xlsx")])])] in
  dict_get kvs "method" JNull = JStr "tools/call" /\
  lookup kvs "fileContent" = None /\
  handle_request ex_parse ex_b64decode ex_dumps (JObj kvs) =
    Ok (error_response (JInt 3) (-32603) "Internal error"
          "a bytes-like object is required, not 'NoneType'").
Proof.
  intros kvs. split; [reflexivity|]. split; [reflexivity|].
  destruct (tools_call_without_file_content ex_parse ex_b64decode ex_dumps kvs
              eq_refl eq_refl) as [_ [H _]].
  destruct (H [("name", JStr "extract_comments");
               ("arguments", JObj [("filename", JStr "book.xlsx")])]
              "extract_comments" [("filename", JStr "book.xlsx")]
              eq_refl eq_refl (or_introl eq_refl) eq_refl) as [_ Hr].
  exact Hr.
Defined.

Lemma initialize_always_succeeds_witness :
  let kvs := [("jsonrpc", JStr "2.0"); ("id", JInt 1); ("method", JStr "initialize")] in
  dict_get kvs "method" JNull = JStr "initialize" /\
  handle_request ex_parse ex_b64decode ex_dumps (JObj kvs) =
    Ok (ok_response (JInt 1) initialize_result).
Proof.
  intros kvs. split; [reflexivity|].
  exact (initialize_always_succeeds ex_parse ex_b64decode ex_dumps kvs eq_refl).
Defined.

Lemma non_object_request_is_parse_error_witness :
  line_response ex_parse ex_b64decode (fun _ => inl (JArr [JInt 1])) ex_dumps (py_line "[1]") =
    error_response (JInt 0) (-32700) "Parse error" "'list' object has no attribute 'get'".
Proof.
  exact (non_object_request_is_parse_error ex_parse ex_b64decode
           (fun _ => inl (JArr [JInt 1])) ex_dumps (py_line "[1]") (JArr [JInt 1]) eq_refl
           (fun kvs H => ltac:(discriminate H))).
Defined.

Lemma tools_call_malformed_params_witness :
  let kvs := [("id", JInt 4); ("method", JStr "tools/call");
              ("params", JObj [("name", JStr "extract_comments"); ("arguments", JNull)])] in
  dict_get kvs "method" JNull = JStr "tools/call" /\
  handle_request ex_parse ex_b64decode ex_dumps (JObj kvs) =
    Ok (error_response (JInt 4) (-32603) "Internal error"
          "'NoneType' object has no attribute 'get'").
Proof.
  intros kvs. split; [reflexivity|].
  destruct (tools_call_malformed_params ex_parse ex_b64decode ex_dumps kvs eq_refl)
    as [_ H].
  exact (H _ JNull eq_refl eq_refl (fun a Ha => ltac:(discriminate Ha))).
Defined.

Lemma decode_error_precedes_tool_lookup_witness :
  let kvs := [("id", JInt 5); ("method", JStr "tools/call");
              ("params", JObj [("name", JStr "no_such_tool");
                               ("arguments", JObj [("filename", JStr "a.xlsx")])]);
              ("fileContent", JInt 12)] in
  handle_request ex_parse ex_b64decode ex_dumps (JObj kvs) =
    Ok (error_response (JInt 5) (-32603) "Internal error"
          "argument should be a bytes-like object or ASCII string, not 'int'").
Proof.
  intros kvs.
  exact (decode_error_precedes_tool_lookup ex_parse ex_b64decode ex_dumps kvs
           [("name", JStr "no_such_tool"); ("arguments", JObj [("filename", JStr "a.xlsx")])]
           [("filename", JStr "a.xlsx")] (JInt 12)
           "argument should be a bytes-like object or ASCII string, not 'int'" 
           eq_refl eq_refl eq_refl eq_refl eq_refl).
Defined.


Lemma tools_call_load_failure_witness :
  let kvs := [("id", JInt 8); ("method", JStr "tools/call");
              ("params", JObj [("name", JStr "detect_hidden_content");
                               ("arguments", JObj [("filename", JStr "a.xlsx")])]);
              ("fileContent", JStr "")] in
  handle_request ex_parse (fun _ => inl []) ex_dumps (JObj kvs) =
    Ok (error_response (JInt 8) (-32603) "Internal error" "File is not a zip file").
Proof.
  intros kvs.
  exact (tools_call_load_failure ex_parse (fun _ => inl []) ex_dumps kvs
           [("name", JStr "detect_hidden_content");
            ("arguments", JObj [("filename", JStr "a.xlsx")])]
           [("filename", JStr "a.xlsx")] "detect_hidden_content" (JStr "") []
           "File is not a zip file" 
           eq_refl eq_refl eq_refl (or_intror (or_intror (or_introl eq_refl)))
           eq_refl eq_refl eq_refl eq_refl).
Defined.

Lemma missing_method_or_tool_name_witness :
  handle_request ex_parse ex_b64decode ex_dumps (JObj [("id", JInt 9)]) =
    Ok (error_response (JInt 9) (-32603) "Internal error" "Unknown method: None") /\
  handle_request ex_parse ex_b64decode ex_dumps
    (JObj [("id", JInt 9); ("method", JStr "tools/call"); ("params", JObj [])]) =
    Ok (error_response (JInt 9) (-32603) "Internal error" "Unknown tool: None").
Proof.
  split.
  - exact (proj1 (missing_method_or_tool_name ex_parse ex_b64decode ex_dumps
                    [("id", JInt 9)] eq_refl) eq_refl).
  - exact (proj2 (missing_method_or_tool_name ex_parse ex_b64decode ex_dumps
                    [("id", JInt 9); ("method", JStr "tools/call"); ("params", JObj [])]
                    eq_refl) [] [] eq_refl eq_refl eq_refl eq_refl).
Defined.

Lemma comprehensive_counts_every_sheet_witness :
  exists r, comprehensive_analysis ex_parse JNull (Some [Byte.x50]) = Ok r /\
    worksheet_count (summary r) = 1.
Proof.
  destruct (comprehensive_analysis ex_parse JNull (Some [Byte.x50])) as [r|e] eqn:E.
  - exists r. split; [reflexivity|].
    exact (proj1 (proj1 (comprehensive_counts_every_sheet ex_parse JNull (Some [Byte.x50])
                           [Work ws_question] eq_refl) r E)).
  - vm_compute in E. discriminate E.
Defined.

Lemma comment_entries_from_commented_cells_witness :
  exists r c cm,
    In (r, c) (cells ws_zero) /\ comment (cell_at ws_zero r c) = Some cm /\
    coordinate r c = "A1" /\ ctext cm = "note".
Proof.
  destruct (comment_entries_from_commented_cells ws_zero
              (mkCommentEntry "A1" "" "note" "Ann") (or_introl eq_refl))
    as [r [c [cm [H1 [H2 [H3 [H4 _]]]]]]].
  exists r, c, cm. repeat split; auto.
Defined.

Lemma pass_reports_are_scans_witness :
  exists wb, load_workbook_from_buffer ex_parse (Some [Byte.x50]) = Ok (map Work wb) /\
    comments_of JNull wb = mkCommentReport JNull 0 [].
Proof.
  destruct (extract_comments ex_parse JNull (Some [Byte.x50])) as [r|e] eqn:E.
  - destruct (proj1 (pass_reports_are_scans ex_parse JNull (Some [Byte.x50])) r E)
      as [wb [Hl Hr]].
    exists wb. split; [exact Hl|]. rewrite <- Hr. vm_compute in E. injection E as <-.
    reflexivity.
  - vm_compute in E. discriminate E.
Defined.


Lemma hidden_scan_column_overflow_witness :
  detect_hidden_content (fun _ => inl [Work ws_wide]) (JStr "w.xlsx") (Some []) =
    Err (ValueError "Invalid column index 18279").
Proof.
  exact (hidden_scan_column_overflow (fun _ => inl [Work ws_wide]) (JStr "w.xlsx") (Some [])
           [] ws_wide [] eq_refl eq_refl
           (proj1 (Nat.ltb_lt 18278 (max_column ws_wide)) eq_refl)).
Defined.
